(** * Overlay positioning and the action menu controller

    A shallow embedding of the two interaction engines of the component
    library:

    - [Position]: [GetVisiblePosition] and its eight helpers, which pick
      the side of an anchor on which a tooltip is drawn;
    - [ActionMenu]: the [ActionMenu] component's state ([showMenu],
      [currentFocusedOption]) and its handlers [toggleMenu],
      [selectOption], [hoverOption], [focusOption] and [handleOnKeyDown].

    Definitions follow the TypeScript sources function by function; the
    definitions whose names come from the specification ([resolveSide],
    [moveFocus], ...) are written from its wording and are compared with
    the source-derived ones. *)

From Stdlib Require Import ZArith List String Bool Lia.
Import ListNotations.

Local Open Scope string_scope.
Local Open Scope list_scope.

(** ** JavaScript numbers

    The rectangles handled by the resolver are [DOMRect]s, whose fields are
    JavaScript numbers.  The resolver only subtracts, compares with [>=] and
    [<=], and tests truthiness (in [a || b]).  These four operations are
    the interface below, so that what is proved of the resolver holds for
    any interpretation of numbers; [Z] gives the one used in examples. *)

Class JsNumber (num : Type) : Type := {
  js_sub : num -> num -> num;      (* a - b *)
  js_ge : num -> num -> bool;      (* a >= b *)
  js_le : num -> num -> bool;      (* a <= b *)
  js_truthy : num -> bool          (* ToBoolean(a): false for 0 (and NaN) *)
}.

#[export] Instance Z_JsNumber : JsNumber Z := {|
  js_sub := Z.sub;
  js_ge := Z.geb;
  js_le := Z.leb;
  js_truthy := fun a => negb (a =? 0)%Z
|}.

(** [a || b] on numbers: [a] when it is truthy, [b] otherwise. *)
Definition js_or {num} `{JsNumber num} (a b : num) : num :=
  if js_truthy a then a else b.

Module Position.

Section Resolver.

Context {num : Type} `{JsNumber num}.

(** The fields of a [DOMRect] that the resolver reads. *)
Record DOMRect : Type := {
  top : num;
  right : num;
  bottom : num;
  left : num;
  width : num;
  height : num
}.

(** The ambient browser objects read by [hasPlaceAtBottom] and
    [hasPlaceAtRight]: [window] and the [documentElement] captured when the
    module is loaded. *)
Record Browser : Type := {
  innerWidth : num;          (* window.innerWidth *)
  innerHeight : num;         (* window.innerHeight *)
  clientWidth : num;         (* documentElement.clientWidth *)
  clientHeight : num         (* documentElement.clientHeight *)
}.

Definition hasPlaceAtTop (tooltipDomRect parentDomRect : DOMRect) : bool :=
  js_ge (top parentDomRect) (height tooltipDomRect).

Definition hasPlaceAtLeft (tooltipDomRect parentDomRect : DOMRect) : bool :=
  js_ge (left parentDomRect) (width tooltipDomRect).

Definition hasPlaceAtBottom (env : Browser)
    (tooltipDomRect parentDomRect : DOMRect) : bool :=
  let clientHeight := js_or (innerHeight env) (clientHeight env) in
  js_le (height tooltipDomRect) (js_sub clientHeight (bottom parentDomRect)).

Definition hasPlaceAtRight (env : Browser)
    (tooltipDomRect parentDomRect : DOMRect) : bool :=
  let clientWidth := js_or (innerWidth env) (clientWidth env) in
  js_le (width tooltipDomRect) (js_sub clientWidth (right parentDomRect)).

Definition isNotFittingOnTopButCanOnBottom (env : Browser)
    (tooltipDomRect parentDomRect : DOMRect) : bool :=
  negb (hasPlaceAtTop tooltipDomRect parentDomRect)
  && hasPlaceAtBottom env tooltipDomRect parentDomRect.

Definition isNotFittingOnRightButCanOnLeft (env : Browser)
    (tooltipDomRect parentDomRect : DOMRect) : bool :=
  negb (hasPlaceAtRight env tooltipDomRect parentDomRect)
  && hasPlaceAtLeft tooltipDomRect parentDomRect.

Definition isNotFittingOnBottomButCanOnTop (env : Browser)
    (tooltipDomRect parentDomRect : DOMRect) : bool :=
  negb (hasPlaceAtBottom env tooltipDomRect parentDomRect)
  && hasPlaceAtTop tooltipDomRect parentDomRect.

Definition isNotFittingOnLeftButCanOnRight (env : Browser)
    (tooltipDomRect parentDomRect : DOMRect) : bool :=
  negb (hasPlaceAtLeft tooltipDomRect parentDomRect)
  && hasPlaceAtRight env tooltipDomRect parentDomRect.

(** [position] is a string at run time; the [switch] compares it with the
    four literals in order and falls to [default] for anything else. *)
Definition GetVisiblePosition (env : Browser)
    (tooltipDomRect parentDomRect : DOMRect) (position : string) : string :=
  if position =? "top" then
    if isNotFittingOnTopButCanOnBottom env tooltipDomRect parentDomRect
    then "bottom" else "top"
  else if position =? "right" then
    if isNotFittingOnRightButCanOnLeft env tooltipDomRect parentDomRect
    then "left" else "right"
  else if position =? "bottom" then
    if isNotFittingOnBottomButCanOnTop env tooltipDomRect parentDomRect
    then "top" else "bottom"
  else if position =? "left" then
    if isNotFittingOnLeftButCanOnRight env tooltipDomRect parentDomRect
    then "right" else "left"
  else "top".

(** *** The resolver as the specification words it *)

Inductive Side : Type := STop | SRight | SBottom | SLeft.

Record Viewport : Type := {
  vwidth : num;
  vheight : num
}.

(** The viewport that the source measures: the window's inner size, or the
    document element's client size when the former is falsy. *)
Definition viewportOf (env : Browser) : Viewport := {|
  vwidth := js_or (innerWidth env) (clientWidth env);
  vheight := js_or (innerHeight env) (clientHeight env)
|}.

Definition opposite (s : Side) : Side :=
  match s with
  | STop => SBottom
  | SBottom => STop
  | SLeft => SRight
  | SRight => SLeft
  end.

(** The four fit predicates, against the anchor rectangle and the
    overlay's own size. *)
Definition fits (overlayRect anchorRect : DOMRect) (viewport : Viewport)
    (s : Side) : bool :=
  match s with
  | STop => js_ge (top anchorRect) (height overlayRect)
  | SBottom =>
      js_le (height overlayRect) (js_sub (vheight viewport) (bottom anchorRect))
  | SLeft => js_ge (left anchorRect) (width overlayRect)
  | SRight =>
      js_le (width overlayRect) (js_sub (vwidth viewport) (right anchorRect))
  end.

(** [preferred] is [None] for an unrecognized value. *)
Definition resolveSide (overlayRect anchorRect : DOMRect)
    (viewport : Viewport) (preferred : option Side) : Side :=
  match preferred with
  | None => STop
  | Some s =>
      if negb (fits overlayRect anchorRect viewport s)
         && fits overlayRect anchorRect viewport (opposite s)
      then opposite s
      else s
  end.

Definition sideName (s : Side) : string :=
  match s with
  | STop => "top"
  | SRight => "right"
  | SBottom => "bottom"
  | SLeft => "left"
  end.

Definition sideOfName (position : string) : option Side :=
  if position =? "top" then Some STop
  else if position =? "right" then Some SRight
  else if position =? "bottom" then Some SBottom
  else if position =? "left" then Some SLeft
  else None.

End Resolver.

Arguments DOMRect num : clear implicits.
Arguments Browser num : clear implicits.
Arguments Viewport num : clear implicits.

End Position.

(** ** The action menu *)

Module ActionMenu.

(** [enabledOptions[i]]: an index outside the array reads [undefined]. *)
Definition js_index {A : Type} (l : list A) (i : Z) : option A :=
  if (i <? 0)%Z then None else nth_error l (Z.to_nat i).

(** [Array.prototype.findIndex]: the index of the first element that
    satisfies [p], and [-1] when there is none. *)
Fixpoint findIndexFrom {A : Type} (p : A -> bool) (l : list A) (i : Z) : Z :=
  match l with
  | [] => (-1)%Z
  | x :: l' => if p x then i else findIndexFrom p l' (i + 1)%Z
  end.

Definition findIndex {A : Type} (p : A -> bool) (l : list A) : Z :=
  findIndexFrom p l 0%Z.

Definition js_length {A : Type} (l : list A) : Z := Z.of_nat (List.length l).

(** The values of [Keys]; [End_] stands for [Keys.End]. *)
Module Keys.
Definition Enter := "Enter".
Definition Space := " ".
Definition ArrowDown := "ArrowDown".
Definition ArrowUp := "ArrowUp".
Definition Escape := "Escape".
Definition Tab := "Tab".
Definition Home := "Home".
Definition End_ := "End".
End Keys.

Inductive FocusDirection : Type := First | Last | Up | Down.

Section Component.

(** The type of an option's [value], compared with [===]. *)
Context {V : Type} (V_eq_dec : forall a b : V, {a = b} + {a <> b}).

Definition strict_eq (a b : V) : bool :=
  if V_eq_dec a b then true else false.

(** Modelled from the spec: the declarations of [Option] and [OptionType]
    belong to the list package, which is not among the sources.  An option
    carries an identifying value, a label and a disabled flag (optional in
    the source, which reads it as [disabled ?? false]); [type] is the
    discriminant that [ActionMenu] sets to ['list'].  [ActionMenuOption] is
    [Omit<Option, 'type'>]. *)
Record ActionMenuOption : Type := {
  am_value : V;
  am_label : string;
  am_disabled : option bool
}.

Record OptionType : Type := {
  type : string;
  value : V;
  label : string;
  disabled : option bool
}.

(** [closeOnSelect?: boolean | ((option: OptionType) => boolean)] *)
Inductive CloseOnSelect : Type :=
| CloseBool (b : bool)
| CloseFn (f : OptionType -> bool).

(** The props that the handlers read.  An optional prop that is left out
    is [None]; for the three callbacks only their presence matters, as
    they return nothing. *)
Record ActionMenuProps : Type := {
  closeOnSelect : option CloseOnSelect;
  isOpen : option bool;
  onMenuClose : bool;        (* is the callback supplied? *)
  onMenuOpen : bool;
  onOptionSelect : bool;
  options : list ActionMenuOption
}.

(** The two [React.useState] cells. *)
Record State : Type := {
  showMenu : bool;
  currentFocusedOption : option OptionType
}.

(** What a handler does, in order: state updates requested from React,
    calls of the callback props, and calls on the keyboard event. *)
Inductive Effect : Type :=
| SetShowMenu (open : bool)
| SetCurrentFocusedOption (o : option OptionType)
| CallOnMenuClose
| CallOnMenuOpen
| CallOnOptionSelect (o : OptionType)
| PreventDefault
| StopPropagation.

Definition Handler : Type := list Effect.

Definition when (c : bool) (h : Handler) : Handler := if c then h else [].

Local Notation "a ;; b" := (a ++ b) (at level 61, right associativity).

(** A handler closes over the state of the render in which it was
    created: its updates are queued and only show in the next render,
    where each cell holds the last value that was set. *)
Definition applyEffect (s : State) (e : Effect) : State :=
  match e with
  | SetShowMenu open =>
      {| showMenu := open; currentFocusedOption := currentFocusedOption s |}
  | SetCurrentFocusedOption o =>
      {| showMenu := showMenu s; currentFocusedOption := o |}
  | _ => s
  end.

Definition commit (s : State) (h : Handler) : State :=
  fold_left applyEffect h s.

Definition isCallback (e : Effect) : bool :=
  match e with
  | CallOnMenuClose | CallOnMenuOpen | CallOnOptionSelect _ => true
  | _ => false
  end.

(** The callback invocations of a handler, in order. *)
Definition callbacks (h : Handler) : list Effect := filter isCallback h.

Section Render.

Variable props : ActionMenuProps.

(** [closeOnSelect = true] and [isOpen = false] in the destructuring. *)
Definition closeOnSelect_ : CloseOnSelect :=
  match closeOnSelect props with
  | Some c => c
  | None => CloseBool true
  end.

Definition isOpen_ : bool :=
  match isOpen props with
  | Some b => b
  | None => false
  end.

Definition actionMenuOptions : list OptionType :=
  map (fun option =>
         {| type := "list";
            value := am_value option;
            label := am_label option;
            disabled := am_disabled option |})
      (options props).

Definition initialState : State :=
  {| showMenu := isOpen_; currentFocusedOption := None |}.

Definition isOptionDisabled (option : option OptionType) : bool :=
  match option with
  | Some o =>
      if type o =? "list" then
        match disabled o with
        | Some d => d
        | None => false
        end
      else false
  | None => false
  end.

Definition toggleMenu (open : bool) : Handler :=
  [SetShowMenu open] ;;
  (if negb open then when (onMenuClose props) [CallOnMenuClose]
   else when (onMenuOpen props) [CallOnMenuOpen]).

Definition closeMenuOnSelect (option : OptionType) : bool :=
  match closeOnSelect_ with
  | CloseFn f => f option
  | CloseBool b => b
  end.

Definition selectOption (option : OptionType) : Handler :=
  when (onOptionSelect props) [CallOnOptionSelect option] ;;
  when (closeMenuOnSelect option) (toggleMenu false).

Definition hoverOption (option : OptionType) : Handler :=
  [SetCurrentFocusedOption (Some option)].

(** The two locals of [focusOption], named as there. *)
Definition enabledOptions : list OptionType :=
  filter (fun option => negb (isOptionDisabled (Some option)))
         actionMenuOptions.

Definition currentFocusedIndex (s : State) : Z :=
  match currentFocusedOption s with
  | Some focused =>
      findIndex (fun enabledOption =>
                   strict_eq (value enabledOption) (value focused))
                enabledOptions
  | None => (-1)%Z
  end.

Definition focusOption (s : State) (direction : FocusDirection) : Handler :=
  if (js_length enabledOptions =? 0)%Z then []
  else
    match direction with
    | Up =>
        [SetCurrentFocusedOption
           (js_index enabledOptions
              (if (currentFocusedIndex s >? 0)%Z
               then (currentFocusedIndex s - 1)%Z
               else (js_length enabledOptions - 1)%Z))]
    | Down =>
        [SetCurrentFocusedOption
           (js_index enabledOptions
              (Z.rem (currentFocusedIndex s + 1)
                     (js_length enabledOptions)))]
    | Last =>
        [SetCurrentFocusedOption
           (js_index enabledOptions (js_length enabledOptions - 1)%Z)]
    | First =>
        [SetCurrentFocusedOption (js_index enabledOptions 0%Z)]
    end.

Definition isSome {A : Type} (o : option A) : bool :=
  match o with
  | Some _ => true
  | None => false
  end.

Definition handleOnKeyDown (s : State) (key : string) : Handler :=
  if key =? Keys.Escape then
    when (showMenu s) (toggleMenu (showMenu s))
  else if key =? Keys.Enter then
    [PreventDefault] ;; [StopPropagation] ;;
    match currentFocusedOption s with
    | Some focused => selectOption focused
    | None => []
    end ;;
    when ((negb (isSome (currentFocusedOption s)) && showMenu s)
          || negb (showMenu s))
         (toggleMenu (negb (showMenu s)))
  else if key =? Keys.Space then
    when (negb (showMenu s)) (toggleMenu true)
  else if key =? Keys.ArrowUp then
    [PreventDefault] ;; [StopPropagation] ;; focusOption s Up
  else if key =? Keys.ArrowDown then
    [PreventDefault] ;; [StopPropagation] ;; focusOption s Down
  else if key =? Keys.Home then
    [PreventDefault] ;; [StopPropagation] ;; focusOption s First
  else if key =? Keys.End_ then
    [PreventDefault] ;; [StopPropagation] ;; focusOption s Last
  else if key =? Keys.Tab then
    when (showMenu s) (toggleMenu (showMenu s))
  else [].

End Render.

(** *** The focus navigator as the specification words it *)

(** [isDisabled(option)]: reads the option's disabled flag. *)
Definition isDisabled (option : OptionType) : bool :=
  match disabled option with
  | Some d => d
  | None => false
  end.

(** The ordered subsequence of the options that are not disabled. *)
Definition EnabledSubset (opts : list OptionType) : list OptionType :=
  filter (fun option => negb (isDisabled option)) opts.

(** The position of the first option of [l] identified by [v]. *)
Fixpoint indexOf (v : V) (l : list OptionType) : option nat :=
  match l with
  | [] => None
  | o :: l' =>
      if strict_eq (value o) v then Some 0%nat
      else option_map S (indexOf v l')
  end.

(** [idx]: the index of the current focus within the enabled subset, or
    [-1] if the focus is empty or not found there. *)
Definition focusIdx (enabled : list OptionType)
    (focus : option OptionType) : Z :=
  match focus with
  | None => (-1)%Z
  | Some focused =>
      match indexOf (value focused) enabled with
      | Some i => Z.of_nat i
      | None => (-1)%Z
      end
  end.

(** [moveFocus(direction)]: the focus after the move. *)
Definition moveFocus (opts : list OptionType) (focus : option OptionType)
    (direction : FocusDirection) : option OptionType :=
  match EnabledSubset opts with
  | [] => focus
  | first :: rest =>
      let enabled := first :: rest in
      let count := Z.of_nat (List.length enabled) in
      let idx := focusIdx enabled focus in
      match direction with
      | First => Some first
      | Last => Some (List.last enabled first)
      | Up =>
          if (idx >? 0)%Z
          then nth_error enabled (Z.to_nat (idx - 1))
          else Some (List.last enabled first)
      | Down => nth_error enabled (Z.to_nat ((idx + 1) mod count))
      end
  end.

(** *** The close-on-select policy as the specification words it *)

Inductive Policy : Type :=
| Always
| Never
| Predicate (p : OptionType -> bool).

Definition policyYields (policy : Policy) (option : OptionType) : bool :=
  match policy with
  | Always => true
  | Never => false
  | Predicate p => p option
  end.

(** The policy that a [closeOnSelect] prop stands for. *)
Definition policyOf (props : ActionMenuProps) : Policy :=
  match closeOnSelect props with
  | None => Always
  | Some (CloseBool true) => Always
  | Some (CloseBool false) => Never
  | Some (CloseFn f) => Predicate f
  end.

(** The focus invariant: the focus is empty or a member of the enabled
    subset. *)
Definition focusEnabled (opts : list OptionType)
    (focus : option OptionType) : Prop :=
  match focus with
  | None => True
  | Some focused => In focused (EnabledSubset opts)
  end.

End Component.

Arguments ActionMenuOption V : clear implicits.
Arguments OptionType V : clear implicits.
Arguments CloseOnSelect V : clear implicits.
Arguments ActionMenuProps V : clear implicits.
Arguments State V : clear implicits.
Arguments Effect V : clear implicits.
Arguments Handler V : clear implicits.
Arguments Policy V : clear implicits.

End ActionMenu.

(** ** The menu across renders

    What surrounds the handlers in the component: the two inline handlers
    of the JSX, and the succession of renders in which each event is
    handled on the state that the previous one left. *)

Module Interaction.

Import ActionMenu.

Section Interaction.

Context {V : Type} (V_eq_dec : forall a b : V, {a = b} + {a <> b}).

Variable props : ActionMenuProps V.

(** [onClose={() => toggleMenu(false)}], given to the dropdown. *)
Definition onClose : Handler V := toggleMenu props false.

(** [onClick: () => toggleMenu(!showMenu)], given to [renderReference]. *)
Definition onClick (s : State V) : Handler V :=
  toggleMenu props (negb (showMenu s)).

(** A key press handled in the render of state [s], and the state of the
    next render. *)
Definition press (s : State V) (key : string) : State V :=
  commit s (handleOnKeyDown V_eq_dec props s key).

(** Key presses, each handled in the render that follows the previous
    one. *)
Definition pressAll (s : State V) (keys : list string) : State V :=
  fold_left press keys s.

(** The callbacks invoked along the way. *)
Fixpoint pressTrace (s : State V) (keys : list string) : list (Effect V) :=
  match keys with
  | [] => []
  | key :: keys' =>
      callbacks (handleOnKeyDown V_eq_dec props s key)
      ++ pressTrace (press s key) keys'
  end.

(** The open state that the callbacks of a handler last announced:
    [Some true] after [onMenuOpen], [Some false] after [onMenuClose],
    [acc] if neither was invoked. *)
Fixpoint lastAnnounced (h : list (Effect V)) (acc : option bool)
  : option bool :=
  match h with
  | [] => acc
  | CallOnMenuOpen :: h' => lastAnnounced h' (Some true)
  | CallOnMenuClose :: h' => lastAnnounced h' (Some false)
  | _ :: h' => lastAnnounced h' acc
  end.

(** [showMenu] as a listener of the two callbacks sees it after [h],
    having seen the state [s] before. *)
Definition announced (h : list (Effect V)) (s : State V) : bool :=
  match lastAnnounced h None with
  | Some open => open
  | None => showMenu s
  end.

End Interaction.

End Interaction.

(** ** Sample data

    Integer rectangles and a menu over string values, for the examples. *)

Module Samples.

Import ActionMenu.

(** A rectangle given by its top-left corner and its size. *)
Definition rect (x y w h : Z) : Position.DOMRect Z :=
  {| Position.top := y; Position.right := (x + w)%Z;
     Position.bottom := (y + h)%Z; Position.left := x;
     Position.width := w; Position.height := h |}.

Definition screen800 : Position.Browser Z :=
  {| Position.innerWidth := 1200%Z; Position.innerHeight := 800%Z;
     Position.clientWidth := 1185%Z; Position.clientHeight := 785%Z |}.

(** A window whose inner size reads 0 falls back on the document
    element. *)
Definition screenFallback : Position.Browser Z :=
  {| Position.innerWidth := 0%Z; Position.innerHeight := 0%Z;
     Position.clientWidth := 1200%Z; Position.clientHeight := 800%Z |}.

Definition item (v lbl : string) (d : option bool) : ActionMenuOption string :=
  {| am_value := v; am_label := lbl; am_disabled := d |}.

(** The [OptionType] that [actionMenuOptions] makes of [item v lbl d]. *)
Definition opt (v lbl : string) (d : option bool) : OptionType string :=
  {| type := "list"; value := v; label := lbl; disabled := d |}.

Definition menu (close : option (CloseOnSelect string))
    (items : list (ActionMenuOption string)) : ActionMenuProps string :=
  {| closeOnSelect := close; isOpen := None;
     onMenuClose := true; onMenuOpen := true; onOptionSelect := true;
     options := items |}.

(** Enabled subset [A, B, C], with a disabled option in between. *)
Definition abc : ActionMenuProps string :=
  menu None [item "A" "Apple" None; item "X" "Xylo" (Some true);
             item "B" "Banana" (Some false); item "C" "Cherry" None].

Definition allDisabled : ActionMenuProps string :=
  menu None [item "A" "Apple" (Some true); item "B" "Banana" (Some true)].

(** Two enabled options share the value ["B"]. *)
Definition duplicated : ActionMenuProps string :=
  menu None [item "A" "Apple" None; item "B" "Banana" None;
             item "B" "Blueberry" None; item "C" "Cherry" None].

Definition closeOnX : ActionMenuProps string :=
  menu (Some (CloseFn (fun o => strict_eq string_dec (value o) "x")))
       [item "x" "close" None; item "y" "stay" None].

(** The enabled options of [abc], as [actionMenuOptions] makes them. *)
Definition optA : OptionType string := opt "A" "Apple" None.
Definition optB : OptionType string := opt "B" "Banana" (Some false).
Definition optC : OptionType string := opt "C" "Cherry" None.

Definition state (open : bool) (focus : option (OptionType string))
  : State string :=
  {| showMenu := open; currentFocusedOption := focus |}.

End Samples.

(** * Properties of the position resolver *)

Section PositionResolver.

Import Position.

Context {num : Type} `{JsNumber num}.

Implicit Types (env : Browser num) (t p : DOMRect num) (position : string).

Lemma sideOfName_sideName (s : Side) : sideOfName (sideName s) = Some s.
Proof. destruct s; reflexivity. Qed.

(** [sideOfName] recognizes the four side names and nothing else. *)
Lemma sideOfName_Some position (s : Side) :
  sideOfName position = Some s <-> position = sideName s.
Proof.
  split.
  - unfold sideOfName.
    destruct (String.eqb_spec position "top") as [-> | _];
      [ intros [= <-]; reflexivity | ].
    destruct (String.eqb_spec position "right") as [-> | _];
      [ intros [= <-]; reflexivity | ].
    destruct (String.eqb_spec position "bottom") as [-> | _];
      [ intros [= <-]; reflexivity | ].
    destruct (String.eqb_spec position "left") as [-> | _];
      [ intros [= <-]; reflexivity | discriminate ].
  - intros ->. apply sideOfName_sideName.
Qed.

(** The fit predicates of the source's helpers are those of the
    specification, read at the measured viewport. *)
Lemma hasPlace_fits env t p :
  hasPlaceAtTop t p = fits t p (viewportOf env) STop
  /\ hasPlaceAtBottom env t p = fits t p (viewportOf env) SBottom
  /\ hasPlaceAtLeft t p = fits t p (viewportOf env) SLeft
  /\ hasPlaceAtRight env t p = fits t p (viewportOf env) SRight.
Proof. repeat split. Qed.

(** The flip rule of [resolveSide]: the result is the opposite side exactly
    when the preferred side does not fit and its opposite does; otherwise
    it is the preferred side. *)
Lemma resolveSide_flip t p (v : Viewport num) (s : Side) :
  (resolveSide t p v (Some s) = opposite s
   <-> fits t p v s = false /\ fits t p v (opposite s) = true)
  /\ (resolveSide t p v (Some s) = s
      <-> ~ (fits t p v s = false /\ fits t p v (opposite s) = true)).
Proof.
  assert (Hne : opposite s <> s) by (destruct s; discriminate).
  unfold resolveSide.
  destruct (fits t p v s), (fits t p v (opposite s)); simpl;
    intuition congruence.
Qed.

Lemma sideName_inj (s s' : Side) : sideName s = sideName s' -> s = s'.
Proof. destruct s, s'; (reflexivity || discriminate). Qed.

Lemma GetVisiblePosition_resolve env t p position :
  GetVisiblePosition env t p position
  = sideName (resolveSide t p (viewportOf env) (sideOfName position)).
Proof.
  unfold GetVisiblePosition, sideOfName.
  destruct (position =? "top").
  { unfold isNotFittingOnTopButCanOnBottom, resolveSide; simpl.
    fold (hasPlaceAtTop t p). fold (hasPlaceAtBottom env t p).
    destruct (negb (hasPlaceAtTop t p) && hasPlaceAtBottom env t p);
      reflexivity. }
  destruct (position =? "right").
  { unfold isNotFittingOnRightButCanOnLeft, resolveSide; simpl.
    fold (hasPlaceAtLeft t p). fold (hasPlaceAtRight env t p).
    destruct (negb (hasPlaceAtRight env t p) && hasPlaceAtLeft t p);
      reflexivity. }
  destruct (position =? "bottom").
  { unfold isNotFittingOnBottomButCanOnTop, resolveSide; simpl.
    fold (hasPlaceAtTop t p). fold (hasPlaceAtBottom env t p).
    destruct (negb (hasPlaceAtBottom env t p) && hasPlaceAtTop t p);
      reflexivity. }
  destruct (position =? "left").
  { unfold isNotFittingOnLeftButCanOnRight, resolveSide; simpl.
    fold (hasPlaceAtLeft t p). fold (hasPlaceAtRight env t p).
    destruct (negb (hasPlaceAtLeft t p) && hasPlaceAtRight env t p);
      reflexivity. }
  reflexivity.
Qed.

(** C1.  [GetVisiblePosition] computes [resolveSide]: for every browser
    state, tooltip rectangle, parent rectangle and requested position, the
    returned position is the name of the side that the reference
    definition picks for the measured viewport.  For a position that
    names a side, the result is the opposite side exactly when the
    preferred side does not fit and the opposite does, and the preferred
    side in every other case (also when neither fits); for a position that
    names no side the result is top. *)
Theorem GetVisiblePosition_is_resolveSide env t p position :
  GetVisiblePosition env t p position
  = sideName (resolveSide t p (viewportOf env) (sideOfName position))
  /\ (forall s : Side,
      position = sideName s ->
      (GetVisiblePosition env t p position = sideName (opposite s)
       <-> fits t p (viewportOf env) s = false
           /\ fits t p (viewportOf env) (opposite s) = true)
      /\ (GetVisiblePosition env t p position = sideName s
          <-> ~ (fits t p (viewportOf env) s = false
                 /\ fits t p (viewportOf env) (opposite s) = true)))
  /\ ((forall s : Side, position <> sideName s) ->
      GetVisiblePosition env t p position = "top").
Proof.
  rewrite GetVisiblePosition_resolve.
  split; [ reflexivity | ].
  split.
  - intros s ->. rewrite sideOfName_sideName.
    destruct (resolveSide_flip t p (viewportOf env) s) as [Hflip Hkeep].
    split.
    + rewrite <- Hflip. split; [ apply sideName_inj | intros ->; reflexivity ].
    + rewrite <- Hkeep. split; [ apply sideName_inj | intros ->; reflexivity ].
  - intros Hnone.
    destruct (sideOfName position) as [s |] eqn:E; [ | reflexivity ].
    apply sideOfName_Some in E. destruct (Hnone s E).
Qed.

(** C8.  [GetVisiblePosition] is a function of its documented inputs only:
    two calls that agree on the tooltip's size, on the four edges of the
    parent rectangle, on the measured viewport and on the requested
    position return the same position, whatever the rest of the browser
    state and of the rectangles. *)
Theorem GetVisiblePosition_deterministic env1 env2 t1 t2 p1 p2 position :
  viewportOf env1 = viewportOf env2 ->
  width t1 = width t2 -> height t1 = height t2 ->
  top p1 = top p2 -> right p1 = right p2 ->
  bottom p1 = bottom p2 -> left p1 = left p2 ->
  GetVisiblePosition env1 t1 p1 position
  = GetVisiblePosition env2 t2 p2 position.
Proof.
  intros Hv Hw Hh Htop Hright Hbottom Hleft.
  injection Hv as Hvw Hvh.
  unfold GetVisiblePosition,
    isNotFittingOnTopButCanOnBottom, isNotFittingOnRightButCanOnLeft,
    isNotFittingOnBottomButCanOnTop, isNotFittingOnLeftButCanOnRight,
    hasPlaceAtTop, hasPlaceAtBottom, hasPlaceAtLeft, hasPlaceAtRight.
  rewrite Hvw, Hvh, Hw, Hh, Htop, Hright, Hbottom, Hleft.
  reflexivity.
Qed.

End PositionResolver.

(** ** The resolver on integer pixels *)

Section PositionExamples.

Import Position Samples.

Local Open Scope Z_scope.

(** On integers the fit predicates are the inequalities of the
    specification. *)
Lemma fits_Z (o a : DOMRect Z) (v : Viewport Z) :
  (fits o a v STop = true <-> top a >= height o)
  /\ (fits o a v SBottom = true <-> height o <= vheight v - bottom a)
  /\ (fits o a v SLeft = true <-> left a >= width o)
  /\ (fits o a v SRight = true <-> width o <= vwidth v - right a).
Proof.
  simpl. rewrite !Z.geb_le, !Z.leb_le. lia.
Qed.

(** Flip: the anchor is too close to the top, and there is room below. *)
Example flip_example :
  GetVisiblePosition screen800 (rect 0 0 60 100) (rect 300 10 80 40) "top"
  = "bottom".
Proof. reflexivity. Qed.

(** No flip: the preferred side fits, though the other would too. *)
Example no_flip_example :
  GetVisiblePosition screen800 (rect 0 0 60 100) (rect 300 150 80 40) "top"
  = "top".
Proof. reflexivity. Qed.

(** Neither side fits: the preferred side is kept. *)
Example neither_fits_example :
  GetVisiblePosition screen800 (rect 0 0 60 100) (rect 300 5 80 790) "top"
  = "top".
Proof. reflexivity. Qed.

Example unrecognized_example :
  GetVisiblePosition screen800 (rect 0 0 60 100) (rect 300 10 80 40)
    "bottom-end"
  = "top".
Proof. reflexivity. Qed.

Example left_right_example :
  GetVisiblePosition screen800 (rect 0 0 60 100) (rect 20 300 80 40) "left"
  = "right"
  /\ GetVisiblePosition screen800 (rect 0 0 60 100) (rect 1150 300 40 40)
       "right"
     = "left".
Proof. split; reflexivity. Qed.

Lemma GetVisiblePosition_is_resolveSide_witness :
  (fits (rect 0 0 60 100) (rect 300 10 80 40) (viewportOf screen800) STop
   = false
   /\ fits (rect 0 0 60 100) (rect 300 10 80 40) (viewportOf screen800)
        (opposite STop) = true)
  /\ GetVisiblePosition screen800 (rect 0 0 60 100) (rect 300 10 80 40) "top"
     = "bottom"
  /\ GetVisiblePosition screen800 (rect 0 0 60 100) (rect 300 10 80 40)
       "bottom-end"
     = "top".
Proof.
  split; [ split; reflexivity | ].
  split.
  - apply (GetVisiblePosition_is_resolveSide screen800 (rect 0 0 60 100)
             (rect 300 10 80 40) "top") with (s := STop).
    + reflexivity.
    + split; reflexivity.
  - apply (GetVisiblePosition_is_resolveSide screen800 (rect 0 0 60 100)
             (rect 300 10 80 40) "bottom-end").
    intros []; discriminate.
Defined.

(** Two browser states with the same viewport, and rectangles that differ
    only where the resolver does not look. *)
Lemma GetVisiblePosition_deterministic_witness :
  GetVisiblePosition screen800
    {| top := 10; right := 380; bottom := 50; left := 300;
       width := 60; height := 100 |}
    (rect 300 10 80 40) "top"
  = GetVisiblePosition screenFallback
      {| top := 7; right := 7; bottom := 7; left := 7;
         width := 60; height := 100 |}
      {| top := 10; right := 380; bottom := 50; left := 300;
         width := 0; height := 0 |}
      "top".
Proof.
  apply GetVisiblePosition_deterministic; reflexivity.
Defined.

End PositionExamples.

(** * Properties of the menu controller *)

Section MenuController.

Import ActionMenu.

Context {V : Type} (V_eq_dec : forall a b : V, {a = b} + {a <> b}).

Implicit Types (props : ActionMenuProps V) (s : State V)
  (h : Handler V) (option focused : OptionType V).

Lemma commit_app s h1 h2 : commit s (h1 ++ h2) = commit (commit s h1) h2.
Proof. apply fold_left_app. Qed.

Lemma callbacks_app h1 h2 : callbacks (h1 ++ h2) = callbacks h1 ++ callbacks h2.
Proof. apply filter_app. Qed.

Lemma commit_toggleMenu props s open :
  commit s (toggleMenu props open)
  = {| showMenu := open; currentFocusedOption := currentFocusedOption s |}.
Proof.
  unfold toggleMenu.
  destruct open, (onMenuOpen props), (onMenuClose props); reflexivity.
Qed.

Lemma callbacks_toggleMenu props open :
  callbacks (toggleMenu props open)
  = if open then when (onMenuOpen props) [CallOnMenuOpen]
    else when (onMenuClose props) [CallOnMenuClose].
Proof.
  unfold toggleMenu.
  destruct open, (onMenuOpen props), (onMenuClose props); reflexivity.
Qed.

Lemma closeMenuOnSelect_policy props option :
  closeMenuOnSelect props option = policyYields (policyOf props) option.
Proof.
  unfold closeMenuOnSelect, closeOnSelect_, policyOf.
  destruct (closeOnSelect props) as [[[|]|f]|]; reflexivity.
Qed.

Lemma commit_selectOption props s option :
  commit s (selectOption props option)
  = if closeMenuOnSelect props option
    then {| showMenu := false; currentFocusedOption := currentFocusedOption s |}
    else s.
Proof.
  unfold selectOption. rewrite commit_app.
  assert (E : commit s (when (onOptionSelect props) [CallOnOptionSelect option])
              = s)
    by (destruct (onOptionSelect props); reflexivity).
  rewrite E.
  destruct (closeMenuOnSelect props option); unfold when at 1.
  - apply commit_toggleMenu.
  - reflexivity.
Qed.

(** C4.  [toggleMenu] is level-triggered: whatever the state before it,
    the call sets [showMenu] to its argument, leaves the focus alone, and
    invokes the callback that the argument selects -- [onMenuClose] for
    [false], [onMenuOpen] for [true] -- and no other; with both callbacks
    supplied that is exactly one callback per call, and two calls of
    [toggleMenu true] in a row invoke [onMenuOpen] twice. *)
Theorem toggleMenu_level_triggered props s open :
  showMenu (commit s (toggleMenu props open)) = open
  /\ currentFocusedOption (commit s (toggleMenu props open))
     = currentFocusedOption s
  /\ callbacks (toggleMenu props open)
     = (if open then when (onMenuOpen props) [CallOnMenuOpen]
        else when (onMenuClose props) [CallOnMenuClose])
  /\ (onMenuOpen props = true -> onMenuClose props = true ->
      callbacks (toggleMenu props open)
      = [if open then CallOnMenuOpen else CallOnMenuClose])
  /\ (onMenuOpen props = true ->
      callbacks (toggleMenu props true ++ toggleMenu props true)
      = [CallOnMenuOpen; CallOnMenuOpen]
      /\ showMenu (commit (commit s (toggleMenu props true))
                          (toggleMenu props true)) = true).
Proof.
  rewrite !commit_toggleMenu, callbacks_app, !callbacks_toggleMenu.
  split; [ reflexivity | ].
  split; [ reflexivity | ].
  split; [ reflexivity | ].
  split.
  - intros -> ->. destruct open; reflexivity.
  - intros ->. split; reflexivity.
Qed.

(** C6.  [selectOption] first invokes [onOptionSelect] with the option
    (when the callback is supplied), then runs [toggleMenu false] exactly
    when the close-on-select policy yields true for the option; a prop that
    is left out stands for [Always].  Under a predicate that compares the
    option's value with [x], selecting an option of value [x] closes the
    menu and selecting any other leaves [showMenu] as it was. *)
Theorem selectOption_policy props s option :
  selectOption props option
  = when (onOptionSelect props) [CallOnOptionSelect option]
    ++ when (policyYields (policyOf props) option) (toggleMenu props false)
  /\ (closeOnSelect props = None ->
      policyOf props = Always
      /\ selectOption props option
         = when (onOptionSelect props) [CallOnOptionSelect option]
           ++ toggleMenu props false)
  /\ (policyYields (policyOf props) option = true ->
      showMenu (commit s (selectOption props option)) = false)
  /\ (policyYields (policyOf props) option = false ->
      commit s (selectOption props option) = s
      /\ callbacks (selectOption props option)
         = when (onOptionSelect props) [CallOnOptionSelect option])
  /\ (forall x : V,
      closeOnSelect props
      = Some (CloseFn (fun o => strict_eq V_eq_dec (value o) x)) ->
      (value option = x ->
       showMenu (commit s (selectOption props option)) = false)
      /\ (value option <> x ->
          showMenu (commit s (selectOption props option)) = showMenu s)).
Proof.
  split; [ | split; [ | split; [ | split ] ] ].
  - unfold selectOption. rewrite closeMenuOnSelect_policy. reflexivity.
  - intros Hdefault.
    unfold selectOption, closeMenuOnSelect, closeOnSelect_, policyOf.
    rewrite Hdefault. split; reflexivity.
  - intros Hy. rewrite commit_selectOption, closeMenuOnSelect_policy, Hy.
    reflexivity.
  - intros Hy. split.
    + rewrite commit_selectOption, closeMenuOnSelect_policy, Hy. reflexivity.
    + unfold selectOption. rewrite closeMenuOnSelect_policy, Hy.
      destruct (onOptionSelect props); reflexivity.
  - intros x Hc.
    rewrite commit_selectOption.
    unfold closeMenuOnSelect, closeOnSelect_. rewrite Hc.
    unfold strict_eq.
    destruct (V_eq_dec (value option) x) as [e | n]; split; intros Hx;
      try reflexivity; contradiction.
Qed.

Lemma handleOnKeyDown_Escape props s :
  handleOnKeyDown V_eq_dec props s Keys.Escape
  = when (showMenu s) (toggleMenu props (showMenu s)).
Proof. reflexivity. Qed.

Lemma handleOnKeyDown_Tab props s :
  handleOnKeyDown V_eq_dec props s Keys.Tab
  = when (showMenu s) (toggleMenu props (showMenu s)).
Proof. reflexivity. Qed.

Lemma handleOnKeyDown_Enter props s :
  handleOnKeyDown V_eq_dec props s Keys.Enter
  = [PreventDefault; StopPropagation]
    ++ match currentFocusedOption s with
       | Some focused => selectOption props focused
       | None => []
       end
    ++ when ((negb (isSome (currentFocusedOption s)) && showMenu s)
             || negb (showMenu s))
            (toggleMenu props (negb (showMenu s))).
Proof. reflexivity. Qed.

Lemma toggleMenu_true_no_close props :
  ~ In CallOnMenuClose (toggleMenu props true)
  /\ ~ In (SetShowMenu false) (toggleMenu props true).
Proof.
  unfold toggleMenu; simpl.
  destruct (onMenuOpen props); simpl; intuition discriminate.
Qed.

(** C3.  Escape and Tab never close the menu.  Closed, the handler does
    nothing at all.  Open, it runs [toggleMenu showMenu], which is
    [toggleMenu true]: [onMenuOpen] is invoked again (when supplied),
    [onMenuClose] is not, and no update to [false] is queued.  Either way
    [showMenu] is the same in the next render. *)
Theorem escape_tab_never_close props s key :
  key = Keys.Escape \/ key = Keys.Tab ->
  (showMenu s = false -> handleOnKeyDown V_eq_dec props s key = [])
  /\ (showMenu s = true ->
      handleOnKeyDown V_eq_dec props s key = toggleMenu props true
      /\ callbacks (handleOnKeyDown V_eq_dec props s key)
         = when (onMenuOpen props) [CallOnMenuOpen])
  /\ ~ In CallOnMenuClose (handleOnKeyDown V_eq_dec props s key)
  /\ ~ In (SetShowMenu false) (handleOnKeyDown V_eq_dec props s key)
  /\ commit s (handleOnKeyDown V_eq_dec props s key) = s.
Proof.
  intros Hkey.
  assert (E : handleOnKeyDown V_eq_dec props s key
              = when (showMenu s) (toggleMenu props (showMenu s))).
  { destruct Hkey as [-> | ->];
      [ apply handleOnKeyDown_Escape | apply handleOnKeyDown_Tab ]. }
  rewrite E. clear E Hkey.
  destruct s as [[|] focus]; simpl showMenu; unfold when.
  - split; [ discriminate | ].
    split; [ intros _; split;
               [ reflexivity | exact (callbacks_toggleMenu props true) ] | ].
    split; [ apply toggleMenu_true_no_close | ].
    split; [ apply toggleMenu_true_no_close | ].
    apply commit_toggleMenu.
  - split; [ reflexivity | ].
    split; [ discriminate | ].
    simpl. intuition.
Qed.

(** C5.  Enter consumes the event, then runs [selectOption] on the focused
    option if there is one, then runs [toggleMenu (not showMenu)] if the
    menu is open without focus, or closed.  So: open without focus, nothing
    is selected and the menu closes; open with focus, the handler is
    [selectOption] alone; closed, the handler ends with [toggleMenu true]. *)
Theorem enter_dispatch props s :
  handleOnKeyDown V_eq_dec props s Keys.Enter
  = [PreventDefault; StopPropagation]
    ++ match currentFocusedOption s with
       | Some focused => selectOption props focused
       | None => []
       end
    ++ (if (negb (isSome (currentFocusedOption s)) && showMenu s)
           || negb (showMenu s)
        then toggleMenu props (negb (showMenu s))
        else [])
  /\ (currentFocusedOption s = None -> showMenu s = true ->
      handleOnKeyDown V_eq_dec props s Keys.Enter
      = [PreventDefault; StopPropagation] ++ toggleMenu props false
      /\ (forall o, ~ In (CallOnOptionSelect o)
                         (handleOnKeyDown V_eq_dec props s Keys.Enter))
      /\ showMenu (commit s (handleOnKeyDown V_eq_dec props s Keys.Enter))
         = false)
  /\ (forall focused,
      currentFocusedOption s = Some focused -> showMenu s = true ->
      handleOnKeyDown V_eq_dec props s Keys.Enter
      = [PreventDefault; StopPropagation] ++ selectOption props focused)
  /\ (showMenu s = false ->
      handleOnKeyDown V_eq_dec props s Keys.Enter
      = [PreventDefault; StopPropagation]
        ++ match currentFocusedOption s with
           | Some focused => selectOption props focused
           | None => []
           end
        ++ toggleMenu props true).
Proof.
  rewrite handleOnKeyDown_Enter.
  split; [ reflexivity | ].
  split; [ | split ].
  - intros -> ->. simpl.
    split; [ reflexivity | ].
    split.
    + intros o. unfold toggleMenu. simpl.
      destruct (onMenuClose props); simpl; intuition discriminate.
    + change (showMenu
                (commit (commit s [PreventDefault; StopPropagation])
                        (toggleMenu props false)) = false).
      rewrite commit_toggleMenu. reflexivity.
  - intros focused -> ->. simpl. rewrite app_nil_r. reflexivity.
  - intros ->. destruct (currentFocusedOption s); reflexivity.
Qed.

(** C9.  Enter on a closed menu with a focused option runs both branches
    against the state of the render: [selectOption] on the focused option
    -- [onOptionSelect], and under a policy that yields true
    [toggleMenu false] with [onMenuClose] -- and then [toggleMenu true],
    since [showMenu] still reads closed.  The last update wins: the next
    render is open, and [onMenuOpen] is the last callback invoked. *)
Theorem enter_closed_with_focus props s focused :
  showMenu s = false ->
  currentFocusedOption s = Some focused ->
  handleOnKeyDown V_eq_dec props s Keys.Enter
  = [PreventDefault; StopPropagation]
    ++ selectOption props focused ++ toggleMenu props true
  /\ showMenu (commit s (handleOnKeyDown V_eq_dec props s Keys.Enter)) = true
  /\ (policyYields (policyOf props) focused = true ->
      handleOnKeyDown V_eq_dec props s Keys.Enter
      = [PreventDefault; StopPropagation]
        ++ when (onOptionSelect props) [CallOnOptionSelect focused]
        ++ [SetShowMenu false] ++ when (onMenuClose props) [CallOnMenuClose]
        ++ [SetShowMenu true] ++ when (onMenuOpen props) [CallOnMenuOpen])
  /\ (onMenuOpen props = true ->
      exists before,
        callbacks (handleOnKeyDown V_eq_dec props s Keys.Enter)
        = before ++ [CallOnMenuOpen])
  /\ (policyYields (policyOf props) focused = true ->
      onOptionSelect props = true -> onMenuClose props = true ->
      onMenuOpen props = true ->
      callbacks (handleOnKeyDown V_eq_dec props s Keys.Enter)
      = [CallOnOptionSelect focused; CallOnMenuClose; CallOnMenuOpen]).
Proof.
  intros Hclosed Hfocus.
  assert (E : handleOnKeyDown V_eq_dec props s Keys.Enter
              = [PreventDefault; StopPropagation]
                ++ selectOption props focused ++ toggleMenu props true).
  { rewrite handleOnKeyDown_Enter, Hclosed, Hfocus. reflexivity. }
  rewrite E.
  split; [ reflexivity | ].
  split; [ | split; [ | split ] ].
  - rewrite !commit_app, commit_toggleMenu. reflexivity.
  - intros Hy. unfold selectOption.
    rewrite closeMenuOnSelect_policy, Hy. unfold when at 2.
    unfold toggleMenu; simpl negb; cbv iota.
    rewrite <- !app_assoc. reflexivity.
  - intros Hopen.
    exists (callbacks ([PreventDefault; StopPropagation]
                       ++ selectOption props focused)).
    rewrite app_assoc, callbacks_app, callbacks_toggleMenu, Hopen.
    reflexivity.
  - intros Hy Hsel Hclose Hopen. unfold selectOption, toggleMenu.
    rewrite closeMenuOnSelect_policy, Hy, Hsel, Hclose, Hopen. reflexivity.
Qed.

End MenuController.

(** * Properties of the focus navigator *)

Section FocusNavigator.

Import ActionMenu.

Context {V : Type} (V_eq_dec : forall a b : V, {a = b} + {a <> b}).

Implicit Types (props : ActionMenuProps V) (s : State V)
  (l enabled : list (OptionType V)) (focus : option (OptionType V))
  (o focused : OptionType V) (direction : FocusDirection).

(** Every option of the menu has type ['list'], so the filter of
    [focusOption] keeps exactly the enabled subset. *)
Lemma enabledOptions_EnabledSubset props :
  enabledOptions props = EnabledSubset (actionMenuOptions props).
Proof.
  unfold enabledOptions, EnabledSubset.
  apply filter_ext_in. intros o Hin.
  unfold actionMenuOptions in Hin.
  apply in_map_iff in Hin. destruct Hin as [a [<- _]].
  reflexivity.
Qed.

Lemma enabledOptions_enabled props o :
  In o (enabledOptions props) <->
  In o (actionMenuOptions props) /\ isOptionDisabled (Some o) = false.
Proof.
  unfold enabledOptions. rewrite filter_In, negb_true_iff. reflexivity.
Qed.

(** *** [findIndex] *)

Lemma findIndexFrom_indexOf (v : V) l (i : Z) :
  findIndexFrom (fun enabledOption =>
                   strict_eq V_eq_dec (value enabledOption) v) l i
  = match indexOf V_eq_dec v l with
    | Some n => (i + Z.of_nat n)%Z
    | None => (-1)%Z
    end.
Proof.
  revert i. induction l as [| o l IH]; intros i; simpl.
  - reflexivity.
  - destruct (strict_eq V_eq_dec (value o) v).
    + simpl. lia.
    + rewrite IH. destruct (indexOf V_eq_dec v l); simpl; [ lia | reflexivity ].
Qed.

Lemma indexOf_lt (v : V) l (n : nat) :
  indexOf V_eq_dec v l = Some n -> (n < List.length l)%nat.
Proof.
  revert n. induction l as [| o l IH]; intros n; simpl.
  - discriminate.
  - destruct (strict_eq V_eq_dec (value o) v).
    + intros [= <-]. lia.
    + destruct (indexOf V_eq_dec v l) as [m |]; simpl; [ | discriminate ].
      intros [= <-]. specialize (IH m eq_refl). lia.
Qed.

(** The first match wins: elements before it do not match. *)
Lemma findIndexFrom_first (p : OptionType V -> bool) before o after (i : Z) :
  (forall b, In b before -> p b = false) ->
  p o = true ->
  findIndexFrom p (before ++ o :: after) i
  = (i + Z.of_nat (List.length before))%Z.
Proof.
  revert i. induction before as [| b before IH]; intros i Hbefore Ho; simpl.
  - rewrite Ho. lia.
  - rewrite (Hbefore b (or_introl eq_refl)).
    rewrite IH; [ lia | | assumption ].
    intros b' Hb'. apply Hbefore. right. assumption.
Qed.

Lemma findIndexFrom_none (p : OptionType V -> bool) l (i : Z) :
  (forall o, In o l -> p o = false) -> findIndexFrom p l i = (-1)%Z.
Proof.
  revert i. induction l as [| o l IH]; intros i Hl; simpl.
  - reflexivity.
  - rewrite (Hl o (or_introl eq_refl)). apply IH.
    intros o' Ho'. apply Hl. right. assumption.
Qed.

Lemma currentFocusedIndex_focusIdx props s :
  currentFocusedIndex V_eq_dec props s
  = focusIdx V_eq_dec (enabledOptions props) (currentFocusedOption s).
Proof.
  unfold currentFocusedIndex, focusIdx, findIndex.
  destruct (currentFocusedOption s) as [focused |]; [ | reflexivity ].
  rewrite findIndexFrom_indexOf.
  destruct (indexOf V_eq_dec (value focused) (enabledOptions props));
    reflexivity.
Qed.

Lemma focusIdx_range enabled focus :
  (-1 <= focusIdx V_eq_dec enabled focus < js_length enabled)%Z.
Proof.
  unfold focusIdx, js_length.
  destruct focus as [focused |]; [ | lia ].
  destruct (indexOf V_eq_dec (value focused) enabled) as [n |] eqn:E; [ | lia ].
  apply indexOf_lt in E. lia.
Qed.

(** *** Array reads *)

Lemma js_index_nth_error {A : Type} (l : list A) (i : Z) :
  (0 <= i)%Z -> js_index l i = nth_error l (Z.to_nat i).
Proof.
  intros Hi. unfold js_index.
  destruct (Z.ltb_spec i 0); [ lia | reflexivity ].
Qed.

Lemma nth_error_last {A : Type} (l : list A) (d : A) :
  l <> [] -> nth_error l (List.length l - 1) = Some (List.last l d).
Proof.
  induction l as [| a l IH]; intros Hne; [ contradiction | ].
  destruct l as [| b l]; [ reflexivity | ].
  change (List.last (a :: b :: l) d) with (List.last (b :: l) d).
  rewrite <- IH by discriminate.
  simpl. rewrite Nat.sub_0_r. reflexivity.
Qed.

Lemma js_index_last {A : Type} (l : list A) (d : A) :
  l <> [] -> js_index l (js_length l - 1) = Some (List.last l d).
Proof.
  intros Hne. unfold js_length.
  assert (0 < List.length l)%nat
    by (destruct l; [ contradiction | simpl; lia ]).
  rewrite js_index_nth_error by lia.
  replace (Z.to_nat (Z.of_nat (List.length l) - 1))
    with (List.length l - 1)%nat by lia.
  apply nth_error_last. assumption.
Qed.

Lemma last_In {A : Type} (l : list A) (d : A) :
  l <> [] -> In (List.last l d) l.
Proof.
  intros Hne.
  destruct (exists_last Hne) as [l' [a ->]].
  rewrite last_last. apply in_or_app. right. left. reflexivity.
Qed.

Lemma nth_error_in_range {A : Type} (l : list A) (n : nat) :
  (n < List.length l)%nat -> exists a, nth_error l n = Some a /\ In a l.
Proof.
  intros Hn.
  destruct (nth_error l n) as [a |] eqn:E.
  - exists a. split; [ reflexivity | ]. eapply nth_error_In; eassumption.
  - apply nth_error_None in E. lia.
Qed.

(** *** [focusOption] against [moveFocus] *)

Lemma commit_focusOption props s direction :
  commit s (focusOption V_eq_dec props s direction)
  = {| showMenu := showMenu s;
       currentFocusedOption :=
         moveFocus V_eq_dec (actionMenuOptions props)
                   (currentFocusedOption s) direction |}.
Proof.
  unfold focusOption, moveFocus.
  rewrite currentFocusedIndex_focusIdx, enabledOptions_EnabledSubset.
  destruct (EnabledSubset (actionMenuOptions props))
    as [| first rest] eqn:E.
  - destruct s; reflexivity.
  - set (enabled := first :: rest).
    assert (Hne : enabled <> []) by discriminate.
    assert (Hlen : (0 < js_length enabled)%Z)
      by (unfold js_length; simpl; lia).
    pose proof (focusIdx_range enabled (currentFocusedOption s)) as Hidx.
    destruct (Z.eqb_spec (js_length enabled) 0) as [Hz | _]; [ lia | ].
    fold (js_length enabled).
    destruct direction; unfold commit; cbn [fold_left applyEffect];
      [ reflexivity | f_equal .. ].
    + apply js_index_last. assumption.
    + destruct (focusIdx V_eq_dec enabled (currentFocusedOption s) >? 0)%Z
        eqn:Hpos.
      * apply js_index_nth_error. lia.
      * apply js_index_last. assumption.
    + rewrite Z.rem_mod_nonneg by lia.
      apply js_index_nth_error. apply Z.mod_pos_bound. assumption.
Qed.

(** With an enabled option in the list, every move lands on a member of
    the enabled subset. *)
Lemma moveFocus_enabled (opts : list (OptionType V)) focus direction :
  EnabledSubset opts <> [] ->
  exists o,
    moveFocus V_eq_dec opts focus direction = Some o
    /\ In o (EnabledSubset opts).
Proof.
  intros Hne. unfold moveFocus.
  destruct (EnabledSubset opts) as [| first rest]; [ contradiction | ].
  set (enabled := first :: rest) in *.
  assert (Hlen : (0 < js_length enabled)%Z)
    by (unfold js_length; simpl; lia).
  pose proof (focusIdx_range enabled focus) as Hidx.
  fold (js_length enabled).
  destruct direction.
  - exists first. split; [ reflexivity | left; reflexivity ].
  - exists (List.last enabled first).
    split; [ reflexivity | apply last_In; assumption ].
  - destruct (focusIdx V_eq_dec enabled focus >? 0)%Z.
    + apply nth_error_in_range. unfold js_length in *. lia.
    + exists (List.last enabled first).
      split; [ reflexivity | apply last_In; assumption ].
  - apply nth_error_in_range.
    pose proof (Z.mod_pos_bound
                  (focusIdx V_eq_dec enabled focus + 1) _ Hlen).
    unfold js_length in *. lia.
Qed.

Lemma EnabledSubset_enabled (opts : list (OptionType V)) o :
  In o (EnabledSubset opts) <-> In o opts /\ isDisabled o = false.
Proof.
  unfold EnabledSubset. rewrite filter_In, negb_true_iff. reflexivity.
Qed.

(** C2.  [focusOption] computes [moveFocus]: in the next render [showMenu]
    is untouched and the focus is what [moveFocus] gives on the menu's
    options.  With an empty enabled subset the handler does nothing, for
    every direction; otherwise the new focus is a member of the enabled
    subset, and [Down] from no focus is its first element. *)
Theorem focusOption_is_moveFocus props s direction :
  showMenu (commit s (focusOption V_eq_dec props s direction)) = showMenu s
  /\ currentFocusedOption (commit s (focusOption V_eq_dec props s direction))
     = moveFocus V_eq_dec (actionMenuOptions props)
                 (currentFocusedOption s) direction
  /\ (EnabledSubset (actionMenuOptions props) = [] ->
      focusOption V_eq_dec props s direction = []
      /\ commit s (focusOption V_eq_dec props s direction) = s)
  /\ (EnabledSubset (actionMenuOptions props) <> [] ->
      exists o,
        currentFocusedOption
          (commit s (focusOption V_eq_dec props s direction)) = Some o
        /\ In o (EnabledSubset (actionMenuOptions props)))
  /\ (forall first rest,
      EnabledSubset (actionMenuOptions props) = first :: rest ->
      currentFocusedOption s = None ->
      currentFocusedOption (commit s (focusOption V_eq_dec props s Down))
      = Some first).
Proof.
  rewrite !commit_focusOption. cbn [showMenu currentFocusedOption].
  split; [ reflexivity | ].
  split; [ reflexivity | ].
  split; [ | split ].
  - intros Hempty. unfold focusOption.
    rewrite enabledOptions_EnabledSubset, Hempty.
    split; [ reflexivity | ].
    unfold moveFocus. rewrite Hempty. destruct s; reflexivity.
  - intros Hne. apply moveFocus_enabled. assumption.
  - intros first rest E Hnone. unfold moveFocus.
    rewrite E, Hnone. reflexivity.
Qed.

(** C7, as the code has it.  Every move of [focusOption] keeps the focus
    empty or on a member of the enabled subset, hence on an option that
    [isOptionDisabled] rejects.  [hoverOption] sets the focus to the
    option it is given without looking at it: afterwards the focus is on a
    member of the enabled subset exactly when the hovered option is one. *)
Theorem focusOption_preserves_focusEnabled props s direction :
  focusEnabled (actionMenuOptions props) (currentFocusedOption s) ->
  focusEnabled (actionMenuOptions props)
    (currentFocusedOption (commit s (focusOption V_eq_dec props s direction)))
  /\ (forall o,
      In o (EnabledSubset (actionMenuOptions props)) ->
      isOptionDisabled (Some o) = false)
  /\ (forall o,
      focusEnabled (actionMenuOptions props)
        (currentFocusedOption (commit s (hoverOption o)))
      <-> In o (EnabledSubset (actionMenuOptions props))).
Proof.
  intros Hinv.
  split; [ | split ].
  - rewrite commit_focusOption. cbn [currentFocusedOption].
    destruct (EnabledSubset (actionMenuOptions props)) as [| first rest] eqn:E.
    + unfold moveFocus. rewrite E. assumption.
    + destruct (moveFocus_enabled (actionMenuOptions props)
                  (currentFocusedOption s) direction) as [o [-> Hin]].
      * rewrite E. discriminate.
      * unfold focusEnabled. assumption.
  - intros o Hin. rewrite <- enabledOptions_EnabledSubset in Hin.
    apply enabledOptions_enabled in Hin. apply Hin.
  - intros o. reflexivity.
Qed.

(** C10.  The current position is found by comparing values.  Two focused
    options of equal value give the same index and the same move.  The
    index is that of the first enabled option carrying the value, so from a
    later option of the same value the move starts at the first one.  A
    focused option whose value no enabled option carries gives index [-1],
    and the move is the one made from an empty focus. *)
Theorem currentFocusedIndex_by_value props s focused :
  currentFocusedOption s = Some focused ->
  (forall s' focused',
      currentFocusedOption s' = Some focused' ->
      value focused' = value focused ->
      currentFocusedIndex V_eq_dec props s'
      = currentFocusedIndex V_eq_dec props s
      /\ forall direction,
          focusOption V_eq_dec props s' direction
          = focusOption V_eq_dec props s direction)
  /\ (forall before o after,
      enabledOptions props = before ++ o :: after ->
      value o = value focused ->
      (forall b, In b before -> value b <> value focused) ->
      currentFocusedIndex V_eq_dec props s
      = Z.of_nat (List.length before))
  /\ ((forall o, In o (enabledOptions props) -> value o <> value focused) ->
      currentFocusedIndex V_eq_dec props s = (-1)%Z
      /\ forall direction,
          focusOption V_eq_dec props s direction
          = focusOption V_eq_dec props
              {| showMenu := showMenu s; currentFocusedOption := None |}
              direction).
Proof.
  intros Hfocus.
  split; [ | split ].
  - intros s' focused' Hfocus' Hvalue.
    assert (E : currentFocusedIndex V_eq_dec props s'
                = currentFocusedIndex V_eq_dec props s).
    { unfold currentFocusedIndex. rewrite Hfocus, Hfocus', Hvalue.
      reflexivity. }
    split; [ exact E | ].
    intros direction. unfold focusOption. rewrite E. reflexivity.
  - intros before o after Hsplit Hvalue Hbefore.
    unfold currentFocusedIndex, findIndex. rewrite Hfocus, Hsplit.
    rewrite findIndexFrom_first.
    + lia.
    + intros b Hb. unfold strict_eq.
      destruct (V_eq_dec (value b) (value focused)) as [e | n];
        [ destruct (Hbefore b Hb e) | reflexivity ].
    + unfold strict_eq.
      destruct (V_eq_dec (value o) (value focused)) as [e | n];
        [ reflexivity | contradiction ].
  - intros Hnone.
    assert (E : currentFocusedIndex V_eq_dec props s = (-1)%Z).
    { unfold currentFocusedIndex, findIndex. rewrite Hfocus.
      apply findIndexFrom_none. intros o Ho. unfold strict_eq.
      destruct (V_eq_dec (value o) (value focused)) as [e | n];
        [ destruct (Hnone o Ho e) | reflexivity ]. }
    split; [ exact E | ].
    intros direction. unfold focusOption. rewrite E. reflexivity.
Qed.

End FocusNavigator.

(** * The menu on sample data *)

Section MenuExamples.

Import ActionMenu Samples.

(** Wrap-around on the enabled subset [optA, optB, optC]. *)
Example wrap_around :
  EnabledSubset (actionMenuOptions abc) = [optA; optB; optC]
  /\ focusOption string_dec abc (state true (Some optC)) Down
     = [SetCurrentFocusedOption (Some optA)]
  /\ focusOption string_dec abc (state true (Some optA)) Up
     = [SetCurrentFocusedOption (Some optC)]
  /\ focusOption string_dec abc (state true None) Down
     = [SetCurrentFocusedOption (Some optA)]
  /\ focusOption string_dec abc (state true None) Up
     = [SetCurrentFocusedOption (Some optC)]
  /\ focusOption string_dec abc (state true (Some optA)) Down
     = [SetCurrentFocusedOption (Some optB)]
  /\ focusOption string_dec abc (state true (Some optB)) Last
     = [SetCurrentFocusedOption (Some optC)]
  /\ focusOption string_dec abc (state true (Some optB)) First
     = [SetCurrentFocusedOption (Some optA)].
Proof. repeat split. Qed.

(** Every option disabled: no move does anything. *)
Example all_disabled_no_op :
  forall direction,
    handleOnKeyDown string_dec allDisabled (state true None) Keys.ArrowDown
    = [PreventDefault; StopPropagation]
    /\ focusOption string_dec allDisabled (state true None) direction = [].
Proof. intros []; split; reflexivity. Qed.

(** The arrow keys, Home and End move the focus whether the menu is open
    or not; Space opens a closed menu and leaves an open one alone; any
    other key is ignored. *)
Example other_keys :
  handleOnKeyDown string_dec abc (state false (Some optA)) Keys.ArrowUp
  = [PreventDefault; StopPropagation; SetCurrentFocusedOption (Some optC)]
  /\ handleOnKeyDown string_dec abc (state false None) Keys.End_
     = [PreventDefault; StopPropagation; SetCurrentFocusedOption (Some optC)]
  /\ handleOnKeyDown string_dec abc (state true (Some optC)) Keys.Home
     = [PreventDefault; StopPropagation; SetCurrentFocusedOption (Some optA)]
  /\ handleOnKeyDown string_dec abc (state false None) Keys.Space
     = [SetShowMenu true; CallOnMenuOpen]
  /\ handleOnKeyDown string_dec abc (state true None) Keys.Space = []
  /\ handleOnKeyDown string_dec abc (state true None) "a" = [].
Proof. repeat split. Qed.

(** Escape on an open menu re-fires [onMenuOpen] and leaves it open. *)
Lemma escape_tab_never_close_witness :
  (Keys.Escape = Keys.Escape \/ Keys.Escape = Keys.Tab)
  /\ handleOnKeyDown string_dec abc (state true (Some optA)) Keys.Escape
     = [SetShowMenu true; CallOnMenuOpen]
  /\ commit (state true (Some optA))
       (handleOnKeyDown string_dec abc (state true (Some optA)) Keys.Escape)
     = state true (Some optA).
Proof.
  assert (Hkey : Keys.Escape = Keys.Escape \/ Keys.Escape = Keys.Tab)
    by (left; reflexivity).
  split; [ exact Hkey | ].
  destruct (escape_tab_never_close string_dec abc (state true (Some optA))
              Keys.Escape Hkey) as [_ [Hopen [_ [_ Hcommit]]]].
  split; [ apply Hopen; reflexivity | exact Hcommit ].
Defined.

Lemma toggleMenu_level_triggered_witness :
  onMenuOpen abc = true
  /\ callbacks (toggleMenu abc true ++ toggleMenu abc true)
     = [CallOnMenuOpen; CallOnMenuOpen]
  /\ callbacks (toggleMenu abc false) = [CallOnMenuClose].
Proof.
  split; [ reflexivity | ].
  split.
  - apply (toggleMenu_level_triggered abc (state false None) true).
    reflexivity.
  - apply (toggleMenu_level_triggered abc (state false None) false);
      reflexivity.
Defined.

(** Enter on an open menu without focus selects nothing and closes. *)
Lemma enter_dispatch_witness :
  currentFocusedOption (state true None) = None
  /\ showMenu (state true None) = true
  /\ handleOnKeyDown string_dec abc (state true None) Keys.Enter
     = [PreventDefault; StopPropagation; SetShowMenu false; CallOnMenuClose]
  /\ showMenu (commit (state true None)
                 (handleOnKeyDown string_dec abc (state true None) Keys.Enter))
     = false.
Proof.
  split; [ reflexivity | ].
  split; [ reflexivity | ].
  destruct (enter_dispatch string_dec abc (state true None))
    as [_ [Hnofocus _]].
  destruct (Hnofocus eq_refl eq_refl) as [Hh [_ Hclosed]].
  split; [ exact Hh | exact Hclosed ].
Defined.

(** Under the predicate [value === 'x'], selecting ['y'] leaves the menu
    open and selecting ['x'] closes it. *)
Lemma selectOption_policy_witness :
  closeOnSelect closeOnX
  = Some (CloseFn (fun o => strict_eq string_dec (value o) "x"))
  /\ showMenu (commit (state true None)
                 (selectOption closeOnX (opt "y" "stay" None))) = true
  /\ showMenu (commit (state true None)
                 (selectOption closeOnX (opt "x" "close" None))) = false.
Proof.
  split; [ reflexivity | ].
  split.
  - apply (selectOption_policy string_dec closeOnX (state true None)
             (opt "y" "stay" None)) with (x := "x").
    + reflexivity.
    + discriminate.
  - apply (selectOption_policy string_dec closeOnX (state true None)
             (opt "x" "close" None)) with (x := "x"); reflexivity.
Defined.

(** Enter on a closed menu with focus on [optA], default policy. *)
Lemma enter_closed_with_focus_witness :
  showMenu (state false (Some optA)) = false
  /\ currentFocusedOption (state false (Some optA)) = Some optA
  /\ policyYields (policyOf abc) optA = true
  /\ handleOnKeyDown string_dec abc (state false (Some optA)) Keys.Enter
     = [PreventDefault; StopPropagation; CallOnOptionSelect optA;
        SetShowMenu false; CallOnMenuClose; SetShowMenu true; CallOnMenuOpen]
  /\ showMenu (commit (state false (Some optA))
                 (handleOnKeyDown string_dec abc (state false (Some optA))
                    Keys.Enter))
     = true.
Proof.
  split; [ reflexivity | ].
  split; [ reflexivity | ].
  split; [ reflexivity | ].
  destruct (enter_closed_with_focus string_dec abc
              (state false (Some optA)) optA eq_refl eq_refl)
    as [_ [Hopen [Htrace _]]].
  split; [ exact (Htrace eq_refl) | exact Hopen ].
Defined.

Lemma focusOption_is_moveFocus_witness :
  EnabledSubset (actionMenuOptions abc) = [optA; optB; optC]
  /\ currentFocusedOption (state true None) = None
  /\ currentFocusedOption
       (commit (state true None)
          (focusOption string_dec abc (state true None) Down))
     = Some optA
  /\ commit (state true (Some optA))
       (focusOption string_dec allDisabled (state true (Some optA)) Up)
     = state true (Some optA).
Proof.
  split; [ reflexivity | ].
  split; [ reflexivity | ].
  split.
  - apply (focusOption_is_moveFocus string_dec abc (state true None) Down)
      with (rest := [optB; optC]); reflexivity.
  - apply (focusOption_is_moveFocus string_dec allDisabled
             (state true (Some optA)) Up).
    reflexivity.
Defined.

(** From [optC], the last enabled option, [Down] wraps to [optA]. *)
Lemma focusOption_preserves_focusEnabled_witness :
  focusEnabled (actionMenuOptions abc)
    (currentFocusedOption (state true (Some optC)))
  /\ focusEnabled (actionMenuOptions abc)
       (currentFocusedOption
          (commit (state true (Some optC))
             (focusOption string_dec abc (state true (Some optC)) Down))).
Proof.
  assert (Hinv : focusEnabled (actionMenuOptions abc)
                   (currentFocusedOption (state true (Some optC))))
    by (right; right; left; reflexivity).
  split; [ exact Hinv | ].
  exact (proj1 (focusOption_preserves_focusEnabled string_dec abc
                  (state true (Some optC)) Down Hinv)).
Defined.

(** C7, as stated, fails for [hoverOption]: hovering the disabled option
    of [abc] from a state that satisfies the invariant puts the focus on
    an option that is disabled, outside the enabled subset. *)
Lemma hoverOption_breaks_focusEnabled :
  In (opt "X" "Xylo" (Some true)) (actionMenuOptions abc)
  /\ isOptionDisabled (Some (opt "X" "Xylo" (Some true))) = true
  /\ focusEnabled (actionMenuOptions abc)
       (currentFocusedOption (initialState abc))
  /\ currentFocusedOption
       (commit (initialState abc) (hoverOption (opt "X" "Xylo" (Some true))))
     = Some (opt "X" "Xylo" (Some true))
  /\ ~ focusEnabled (actionMenuOptions abc)
         (currentFocusedOption
            (commit (initialState abc)
               (hoverOption (opt "X" "Xylo" (Some true))))).
Proof.
  split; [ right; left; reflexivity | ].
  split; [ reflexivity | ].
  split; [ exact I | ].
  split; [ reflexivity | ].
  simpl. intros [H | [H | [H | []]]]; discriminate H.
Qed.

(** Focus on the second option of value ["B"]: the index is that of the
    first, and [Down] goes to the second -- the focus does not advance. *)
Lemma currentFocusedIndex_by_value_witness :
  currentFocusedOption (state true (Some (opt "B" "Blueberry" None)))
  = Some (opt "B" "Blueberry" None)
  /\ enabledOptions duplicated
     = [opt "A" "Apple" None] ++ opt "B" "Banana" None
       :: [opt "B" "Blueberry" None; opt "C" "Cherry" None]
  /\ currentFocusedIndex string_dec duplicated
       (state true (Some (opt "B" "Blueberry" None)))
     = 1%Z
  /\ focusOption string_dec duplicated
       (state true (Some (opt "B" "Blueberry" None))) Down
     = focusOption string_dec duplicated
         (state true (Some (opt "B" "Banana" None))) Down.
Proof.
  split; [ reflexivity | ].
  split; [ reflexivity | ].
  destruct (currentFocusedIndex_by_value string_dec duplicated
              (state true (Some (opt "B" "Blueberry" None)))
              (opt "B" "Blueberry" None) eq_refl)
    as [Hsame [Hfirst _]].
  split.
  - apply (Hfirst [opt "A" "Apple" None] (opt "B" "Banana" None)
             [opt "B" "Blueberry" None; opt "C" "Cherry" None]).
    + reflexivity.
    + reflexivity.
    + intros b [<- | []]. discriminate.
  - symmetry.
    apply (Hsame (state true (Some (opt "B" "Banana" None)))
             (opt "B" "Banana" None)); reflexivity.
Defined.

(** What the duplicate does to navigation: [Down] from the second ["B"]
    stays on it, and [Up] from it skips the first ["B"]. *)
Example duplicate_values :
  focusOption string_dec duplicated
    (state true (Some (opt "B" "Blueberry" None))) Down
  = [SetCurrentFocusedOption (Some (opt "B" "Blueberry" None))]
  /\ focusOption string_dec duplicated
       (state true (Some (opt "B" "Blueberry" None))) Up
     = [SetCurrentFocusedOption (Some (opt "A" "Apple" None))]
  /\ focusOption string_dec duplicated
       (state true (Some (opt "Z" "Zucchini" None))) Down
     = [SetCurrentFocusedOption (Some (opt "A" "Apple" None))].
Proof. repeat split. Qed.

End MenuExamples.

(** * Further properties of the position resolver *)

Section ResolverGuarantees.

Import Position.

Context {num : Type} `{JsNumber num}.

Implicit Types (env : Browser num) (t p : DOMRect num) (position : string).

Lemma opposite_involutive (s : Side) : opposite (opposite s) = s.
Proof. destruct s; reflexivity. Qed.

Lemma resolveSide_fits t p (v : Viewport num) (s : Side) :
  fits t p v (resolveSide t p v (Some s))
  = fits t p v s || fits t p v (opposite s).
Proof.
  unfold resolveSide.
  destruct (fits t p v s) eqn:Es; destruct (fits t p v (opposite s)) eqn:Eo;
    simpl; congruence.
Qed.

(** X1.  The resolver stays on the axis of the requested side: for a
    position that names a side the result names that side or its opposite,
    never one of the two perpendicular sides; and whatever the position,
    the result names a side. *)
Theorem GetVisiblePosition_same_axis env t p position :
  (exists r : Side, GetVisiblePosition env t p position = sideName r)
  /\ (forall s : Side,
      position = sideName s ->
      GetVisiblePosition env t p position = sideName s
      \/ GetVisiblePosition env t p position = sideName (opposite s)).
Proof.
  rewrite GetVisiblePosition_resolve. split.
  - eexists. reflexivity.
  - intros s ->. rewrite sideOfName_sideName. unfold resolveSide.
    destruct (negb (fits t p (viewportOf env) s)
              && fits t p (viewportOf env) (opposite s));
      [ right | left ]; reflexivity.
Qed.

(** X2.  The side returned for a requested side fits exactly when the
    requested side or its opposite fits: the resolver never returns a side
    without room while the other side of the axis has room. *)
Theorem GetVisiblePosition_fits env t p position (s : Side) :
  position = sideName s ->
  exists r : Side,
    GetVisiblePosition env t p position = sideName r
    /\ fits t p (viewportOf env) r
       = fits t p (viewportOf env) s
         || fits t p (viewportOf env) (opposite s).
Proof.
  intros ->. rewrite GetVisiblePosition_resolve, sideOfName_sideName.
  exists (resolveSide t p (viewportOf env) (Some s)).
  split; [ reflexivity | apply resolveSide_fits ].
Qed.

(** X3.  Resolving again from a resolved side changes nothing: called
    with the side it returned for a requested side, on the same
    rectangles and viewport, the resolver returns that side again. *)
Theorem GetVisiblePosition_stable env t p position (s : Side) :
  position = sideName s ->
  GetVisiblePosition env t p (GetVisiblePosition env t p position)
  = GetVisiblePosition env t p position.
Proof.
  intros ->.
  rewrite (GetVisiblePosition_resolve env t p (sideName s)).
  rewrite sideOfName_sideName, GetVisiblePosition_resolve.
  rewrite sideOfName_sideName. f_equal.
  unfold resolveSide.
  destruct (fits t p (viewportOf env) s) eqn:Es;
    destruct (fits t p (viewportOf env) (opposite s)) eqn:Eo; simpl;
    rewrite ?opposite_involutive, ?Es, ?Eo; reflexivity.
Qed.

End ResolverGuarantees.

(** ** Guarantees on integer pixels *)

Section ResolverOnIntegers.

Import Position Samples.

Local Open Scope Z_scope.

Implicit Types (env : Browser Z) (t p : DOMRect Z).

Lemma resolve_vertical env t p (position : string) :
  position = "top" \/ position = "bottom" ->
  exists s : Side,
    (s = STop \/ s = SBottom)
    /\ GetVisiblePosition env t p position
       = sideName (resolveSide t p (viewportOf env) (Some s)).
Proof.
  intros [-> | ->]; [ exists STop | exists SBottom ];
    (split; [ auto | apply GetVisiblePosition_resolve ]).
Qed.

Lemma resolve_horizontal env t p (position : string) :
  position = "left" \/ position = "right" ->
  exists s : Side,
    (s = SLeft \/ s = SRight)
    /\ GetVisiblePosition env t p position
       = sideName (resolveSide t p (viewportOf env) (Some s)).
Proof.
  intros [-> | ->]; [ exists SLeft | exists SRight ];
    (split; [ auto | apply GetVisiblePosition_resolve ]).
Qed.

(** X4.  Enough room on the axis means the result fits.  When the space
    above the parent and the space below it add up to at least twice the
    tooltip's height, the side returned for top or bottom has room for the
    tooltip; likewise for left and right with the widths. *)
Theorem GetVisiblePosition_fits_with_room env t p :
  (2 * height t <= top p + (vheight (viewportOf env) - bottom p) ->
   forall position : string,
     position = "top" \/ position = "bottom" ->
     exists r : Side,
       GetVisiblePosition env t p position = sideName r
       /\ fits t p (viewportOf env) r = true)
  /\ (2 * width t <= left p + (vwidth (viewportOf env) - right p) ->
      forall position : string,
        position = "left" \/ position = "right" ->
        exists r : Side,
          GetVisiblePosition env t p position = sideName r
          /\ fits t p (viewportOf env) r = true).
Proof.
  remember (viewportOf env) as v eqn:Ev.
  split; intros Hroom position Hpos.
  - destruct (resolve_vertical env t p position Hpos) as [s [Hs ->]].
    rewrite <- Ev. eexists. split; [ reflexivity | ].
    rewrite resolveSide_fits.
    assert (E : fits t p v STop || fits t p v SBottom = true).
    { simpl.
      destruct (Z.geb_spec (top p) (height t)); [ reflexivity | ].
      destruct (Z.leb_spec (height t) (vheight v - bottom p));
        [ reflexivity | lia ]. }
    destruct Hs as [-> | ->]; [ exact E | ].
    rewrite orb_comm. exact E.
  - destruct (resolve_horizontal env t p position Hpos) as [s [Hs ->]].
    rewrite <- Ev. eexists. split; [ reflexivity | ].
    rewrite resolveSide_fits.
    assert (E : fits t p v SLeft || fits t p v SRight = true).
    { simpl.
      destruct (Z.geb_spec (left p) (width t)); [ reflexivity | ].
      destruct (Z.leb_spec (width t) (vwidth v - right p));
        [ reflexivity | lia ]. }
    destruct Hs as [-> | ->]; [ exact E | ].
    rewrite orb_comm. exact E.
Qed.

(** X5.  A tooltip larger than the viewport is never flipped.  When the
    parent's vertical extent meets the viewport and the tooltip is taller
    than the viewport, top stays top and bottom stays bottom; likewise for
    left and right when it is wider than the viewport. *)
Theorem GetVisiblePosition_oversized env t p :
  (0 <= bottom p -> top p <= vheight (viewportOf env) ->
   vheight (viewportOf env) < height t ->
   GetVisiblePosition env t p "top" = "top"
   /\ GetVisiblePosition env t p "bottom" = "bottom")
  /\ (0 <= right p -> left p <= vwidth (viewportOf env) ->
      vwidth (viewportOf env) < width t ->
      GetVisiblePosition env t p "left" = "left"
      /\ GetVisiblePosition env t p "right" = "right").
Proof.
  split; intros Hlow Hhigh Hbig; simpl in Hhigh, Hbig.
  - assert (Etop : hasPlaceAtTop t p = false)
      by (unfold hasPlaceAtTop; simpl; rewrite Z.geb_leb; apply Z.leb_gt; lia).
    assert (Ebottom : hasPlaceAtBottom env t p = false)
      by (unfold hasPlaceAtBottom; simpl; apply Z.leb_gt; lia).
    unfold GetVisiblePosition, isNotFittingOnTopButCanOnBottom,
      isNotFittingOnBottomButCanOnTop; simpl String.eqb; cbv iota.
    rewrite Etop, Ebottom. split; reflexivity.
  - assert (Eleft : hasPlaceAtLeft t p = false)
      by (unfold hasPlaceAtLeft; simpl; rewrite Z.geb_leb; apply Z.leb_gt; lia).
    assert (Eright : hasPlaceAtRight env t p = false)
      by (unfold hasPlaceAtRight; simpl; apply Z.leb_gt; lia).
    unfold GetVisiblePosition, isNotFittingOnLeftButCanOnRight,
      isNotFittingOnRightButCanOnLeft; simpl String.eqb; cbv iota.
    rewrite Eleft, Eright. split; reflexivity.
Qed.

End ResolverOnIntegers.

(** * The keyboard as a whole *)

Section MenuKeyboard.

Import ActionMenu Interaction.

Context {V : Type} (V_eq_dec : forall a b : V, {a = b} + {a <> b}).

Implicit Types (props : ActionMenuProps V) (s : State V)
  (h : Handler V) (focused : OptionType V) (key : string).

(** Case analysis on the [switch] of [handleOnKeyDown]. *)
Lemma handleOnKeyDown_cases props s (P : string -> Handler V -> Prop) :
  P Keys.Escape (when (showMenu s) (toggleMenu props (showMenu s))) ->
  P Keys.Enter
    ([PreventDefault; StopPropagation]
     ++ match currentFocusedOption s with
        | Some focused => selectOption props focused
        | None => []
        end
     ++ when ((negb (isSome (currentFocusedOption s)) && showMenu s)
              || negb (showMenu s))
             (toggleMenu props (negb (showMenu s)))) ->
  P Keys.Space (when (negb (showMenu s)) (toggleMenu props true)) ->
  P Keys.ArrowUp
    ([PreventDefault; StopPropagation] ++ focusOption V_eq_dec props s Up) ->
  P Keys.ArrowDown
    ([PreventDefault; StopPropagation] ++ focusOption V_eq_dec props s Down) ->
  P Keys.Home
    ([PreventDefault; StopPropagation] ++ focusOption V_eq_dec props s First) ->
  P Keys.End_
    ([PreventDefault; StopPropagation] ++ focusOption V_eq_dec props s Last) ->
  P Keys.Tab (when (showMenu s) (toggleMenu props (showMenu s))) ->
  (forall key,
      key <> Keys.Escape -> key <> Keys.Enter -> key <> Keys.Space ->
      key <> Keys.ArrowUp -> key <> Keys.ArrowDown -> key <> Keys.Home ->
      key <> Keys.End_ -> key <> Keys.Tab ->
      P key []) ->
  forall key, P key (handleOnKeyDown V_eq_dec props s key).
Proof.
  intros HEscape HEnter HSpace HUp HDown HHome HEnd HTab Hother key.
  unfold handleOnKeyDown.
  destruct (String.eqb_spec key Keys.Escape) as [-> | n1]; [ exact HEscape | ].
  destruct (String.eqb_spec key Keys.Enter) as [-> | n2]; [ exact HEnter | ].
  destruct (String.eqb_spec key Keys.Space) as [-> | n3]; [ exact HSpace | ].
  destruct (String.eqb_spec key Keys.ArrowUp) as [-> | n4]; [ exact HUp | ].
  destruct (String.eqb_spec key Keys.ArrowDown) as [-> | n5];
    [ exact HDown | ].
  destruct (String.eqb_spec key Keys.Home) as [-> | n6]; [ exact HHome | ].
  destruct (String.eqb_spec key Keys.End_) as [-> | n7]; [ exact HEnd | ].
  destruct (String.eqb_spec key Keys.Tab) as [-> | n8]; [ exact HTab | ].
  apply Hother; assumption.
Qed.

Lemma callbacks_focusOption props s (direction : FocusDirection) :
  callbacks (focusOption V_eq_dec props s direction) = [].
Proof.
  unfold focusOption.
  destruct (js_length (enabledOptions props) =? 0)%Z; [ reflexivity | ].
  destruct direction; reflexivity.
Qed.

Lemma commit_consumed s h :
  commit s ([PreventDefault; StopPropagation] ++ h) = commit s h.
Proof. reflexivity. Qed.

Lemma commit_when s (c : bool) h :
  commit s (when c h) = if c then commit s h else s.
Proof. destruct c; reflexivity. Qed.

Lemma commit_Enter props s :
  commit s (handleOnKeyDown V_eq_dec props s Keys.Enter)
  = {| showMenu :=
         if showMenu s
         then match currentFocusedOption s with
              | Some focused => negb (closeMenuOnSelect props focused)
              | None => false
              end
         else true;
       currentFocusedOption := currentFocusedOption s |}.
Proof.
  rewrite handleOnKeyDown_Enter, commit_consumed, commit_app.
  rewrite commit_when, commit_toggleMenu.
  destruct s as [open [focused |]]; cbn [currentFocusedOption showMenu isSome].
  - rewrite commit_selectOption.
    destruct open, (closeMenuOnSelect props focused); reflexivity.
  - destruct open; reflexivity.
Qed.

Lemma handleOnKeyDown_navigation props s :
  handleOnKeyDown V_eq_dec props s Keys.ArrowUp
  = [PreventDefault; StopPropagation] ++ focusOption V_eq_dec props s Up
  /\ handleOnKeyDown V_eq_dec props s Keys.ArrowDown
     = [PreventDefault; StopPropagation] ++ focusOption V_eq_dec props s Down
  /\ handleOnKeyDown V_eq_dec props s Keys.Home
     = [PreventDefault; StopPropagation] ++ focusOption V_eq_dec props s First
  /\ handleOnKeyDown V_eq_dec props s Keys.End_
     = [PreventDefault; StopPropagation] ++ focusOption V_eq_dec props s Last.
Proof. repeat split. Qed.

Lemma navigation_handler props s (direction : FocusDirection) :
  callbacks ([PreventDefault; StopPropagation]
             ++ focusOption V_eq_dec props s direction) = []
  /\ commit s ([PreventDefault; StopPropagation]
               ++ focusOption V_eq_dec props s direction)
     = {| showMenu := showMenu s;
          currentFocusedOption :=
            moveFocus V_eq_dec (actionMenuOptions props)
                      (currentFocusedOption s) direction |}.
Proof.
  split.
  - apply (callbacks_focusOption props s direction).
  - rewrite commit_consumed. apply commit_focusOption.
Qed.

(** X6.  The arrow keys, Home and End only move the focus, open or
    closed: the event is consumed, no callback is invoked, and [showMenu]
    is the same in the next render. *)
Theorem navigation_keys_only_move_focus props s key :
  key = Keys.ArrowUp \/ key = Keys.ArrowDown
  \/ key = Keys.Home \/ key = Keys.End_ ->
  (exists h,
      handleOnKeyDown V_eq_dec props s key
      = PreventDefault :: StopPropagation :: h)
  /\ callbacks (handleOnKeyDown V_eq_dec props s key) = []
  /\ showMenu (press V_eq_dec props s key) = showMenu s.
Proof.
  unfold press.
  destruct (handleOnKeyDown_navigation props s) as [EUp [EDown [EHome EEnd]]].
  intros [-> | [-> | [-> | ->]]].
  - rewrite EUp. destruct (navigation_handler props s Up) as [-> ->].
    split; [ eexists; reflexivity | split; reflexivity ].
  - rewrite EDown. destruct (navigation_handler props s Down) as [-> ->].
    split; [ eexists; reflexivity | split; reflexivity ].
  - rewrite EHome. destruct (navigation_handler props s First) as [-> ->].
    split; [ eexists; reflexivity | split; reflexivity ].
  - rewrite EEnd. destruct (navigation_handler props s Last) as [-> ->].
    split; [ eexists; reflexivity | split; reflexivity ].
Qed.

Ltac key_differs H :=
  apply String.eqb_eq in H; vm_compute in H; discriminate H.

Lemma showMenu_navigation props s (direction : FocusDirection) :
  showMenu (commit s ([PreventDefault; StopPropagation]
                      ++ focusOption V_eq_dec props s direction))
  = showMenu s.
Proof.
  destruct (navigation_handler props s direction) as [_ ->]. reflexivity.
Qed.

(** X7.  From the keyboard a closed menu opens on Enter and on Space, and
    on no other key: after a key press in a render where the menu is
    closed, the next render is open exactly when the key was one of the
    two. *)
Theorem keyboard_opens_iff props s key :
  showMenu s = false ->
  (showMenu (press V_eq_dec props s key) = true
   <-> key = Keys.Enter \/ key = Keys.Space).
Proof.
  intros Hclosed. unfold press.
  apply (handleOnKeyDown_cases props s
           (fun key h =>
              showMenu (commit s h) = true
              <-> key = Keys.Enter \/ key = Keys.Space)).
  - rewrite commit_when, Hclosed.
    split; [ congruence | intros [E | E]; key_differs E ].
  - rewrite <- (handleOnKeyDown_Enter V_eq_dec), commit_Enter, Hclosed.
    split; [ left; reflexivity | reflexivity ].
  - rewrite commit_when, commit_toggleMenu, Hclosed.
    split; [ right; reflexivity | reflexivity ].
  - rewrite showMenu_navigation.
    split; [ congruence | intros [E | E]; key_differs E ].
  - rewrite showMenu_navigation.
    split; [ congruence | intros [E | E]; key_differs E ].
  - rewrite showMenu_navigation.
    split; [ congruence | intros [E | E]; key_differs E ].
  - rewrite showMenu_navigation.
    split; [ congruence | intros [E | E]; key_differs E ].
  - rewrite commit_when, Hclosed.
    split; [ congruence | intros [E | E]; key_differs E ].
  - intros key' _ HEnter HSpace _ _ _ _ _.
    split; [ cbn; congruence | tauto ].
Qed.

(** X8.  From the keyboard an open menu closes on Enter only, and only
    without a focused option or on a focused option for which
    [closeOnSelect] holds: after a key press in a render where the menu is
    open, the next render is closed exactly in these two cases. *)
Theorem keyboard_closes_iff props s key :
  showMenu s = true ->
  (showMenu (press V_eq_dec props s key) = false
   <-> key = Keys.Enter
       /\ match currentFocusedOption s with
          | Some focused => closeMenuOnSelect props focused = true
          | None => True
          end).
Proof.
  intros Hopen. unfold press.
  apply (handleOnKeyDown_cases props s
           (fun key h =>
              showMenu (commit s h) = false
              <-> key = Keys.Enter
                  /\ match currentFocusedOption s with
                     | Some focused => closeMenuOnSelect props focused = true
                     | None => True
                     end)).
  - rewrite commit_when, commit_toggleMenu, Hopen.
    split; [ discriminate | intros [E _]; key_differs E ].
  - rewrite <- (handleOnKeyDown_Enter V_eq_dec), commit_Enter, Hopen.
    cbn [showMenu].
    destruct (currentFocusedOption s) as [focused |].
    + destruct (closeMenuOnSelect props focused); cbn [negb];
        intuition congruence.
    + intuition congruence.
  - rewrite commit_when, Hopen.
    split; [ cbn; congruence | intros [E _]; key_differs E ].
  - rewrite showMenu_navigation.
    split; [ congruence | intros [E _]; key_differs E ].
  - rewrite showMenu_navigation.
    split; [ congruence | intros [E _]; key_differs E ].
  - rewrite showMenu_navigation.
    split; [ congruence | intros [E _]; key_differs E ].
  - rewrite showMenu_navigation.
    split; [ congruence | intros [E _]; key_differs E ].
  - rewrite commit_when, commit_toggleMenu, Hopen.
    split; [ discriminate | intros [E _]; key_differs E ].
  - intros key' _ HEnter _ _ _ _ _ _.
    split; [ cbn; congruence | tauto ].
Qed.

(** X9.  The focus is never cleared.  No key press takes a focused
    option away: a render with a focused option is followed by a render
    with one.  Keys other than the arrows, Home and End leave the focus as
    it is, and so do [selectOption], a click on the reference and the
    dropdown's close: a menu that closes keeps its focus. *)
Theorem focus_never_cleared props s key :
  (currentFocusedOption s <> None ->
   currentFocusedOption (press V_eq_dec props s key) <> None)
  /\ (key <> Keys.ArrowUp -> key <> Keys.ArrowDown ->
      key <> Keys.Home -> key <> Keys.End_ ->
      currentFocusedOption (press V_eq_dec props s key)
      = currentFocusedOption s)
  /\ (forall option : OptionType V,
      currentFocusedOption (commit s (selectOption props option))
      = currentFocusedOption s)
  /\ currentFocusedOption (commit s (onClick props s))
     = currentFocusedOption s
  /\ currentFocusedOption (commit s (onClose props))
     = currentFocusedOption s.
Proof.
  assert (Hnav : forall direction : FocusDirection,
             currentFocusedOption s <> None ->
             currentFocusedOption
               (commit s ([PreventDefault; StopPropagation]
                          ++ focusOption V_eq_dec props s direction))
             <> None).
  { intros direction Hfocus.
    destruct (navigation_handler props s direction) as [_ ->].
    cbn [currentFocusedOption].
    destruct (EnabledSubset (actionMenuOptions props)) as [| first rest] eqn:E.
    - unfold moveFocus. rewrite E. exact Hfocus.
    - destruct (moveFocus_enabled V_eq_dec (actionMenuOptions props)
                  (currentFocusedOption s) direction) as [o [-> _]];
        [ rewrite E | ]; discriminate. }
  split; [ | split; [ | split; [ | split ] ] ].
  - unfold press.
    apply (handleOnKeyDown_cases props s
             (fun key h =>
                currentFocusedOption s <> None ->
                currentFocusedOption (commit s h) <> None)).
    + rewrite commit_when, commit_toggleMenu.
      destruct (showMenu s); trivial.
    + rewrite <- (handleOnKeyDown_Enter V_eq_dec), commit_Enter. trivial.
    + rewrite commit_when, commit_toggleMenu.
      destruct (negb (showMenu s)); trivial.
    + apply Hnav.
    + apply Hnav.
    + apply Hnav.
    + apply Hnav.
    + rewrite commit_when, commit_toggleMenu.
      destruct (showMenu s); trivial.
    + trivial.
  - unfold press.
    apply (handleOnKeyDown_cases props s
             (fun key h =>
                key <> Keys.ArrowUp -> key <> Keys.ArrowDown ->
                key <> Keys.Home -> key <> Keys.End_ ->
                currentFocusedOption (commit s h) = currentFocusedOption s)).
    + intros _ _ _ _. rewrite commit_when, commit_toggleMenu.
      destruct (showMenu s); reflexivity.
    + intros _ _ _ _. rewrite <- (handleOnKeyDown_Enter V_eq_dec), commit_Enter.
      reflexivity.
    + intros _ _ _ _. rewrite commit_when, commit_toggleMenu.
      destruct (negb (showMenu s)); reflexivity.
    + intros E. destruct (E eq_refl).
    + intros _ E. destruct (E eq_refl).
    + intros _ _ E. destruct (E eq_refl).
    + intros _ _ _ E. destruct (E eq_refl).
    + intros _ _ _ _. rewrite commit_when, commit_toggleMenu.
      destruct (showMenu s); reflexivity.
    + reflexivity.
  - intros option. rewrite commit_selectOption.
    destruct (closeMenuOnSelect props option); reflexivity.
  - unfold onClick. rewrite commit_toggleMenu. reflexivity.
  - unfold onClose. rewrite commit_toggleMenu. reflexivity.
Qed.

End MenuKeyboard.

(** * Callbacks against state *)

Section MenuAnnouncements.

Import ActionMenu Interaction.

Context {V : Type} (V_eq_dec : forall a b : V, {a = b} + {a <> b}).

Implicit Types (props : ActionMenuProps V) (s : State V)
  (h : Handler V) (option : OptionType V) (key : string).

Lemma lastAnnounced_app h1 h2 (acc : option bool) :
  lastAnnounced (h1 ++ h2) acc = lastAnnounced h2 (lastAnnounced h1 acc).
Proof.
  revert acc. induction h1 as [| e h1 IH]; intros acc; [ reflexivity | ].
  destruct e; simpl; apply IH.
Qed.

Lemma lastAnnounced_acc h (acc : option bool) :
  lastAnnounced h acc
  = match lastAnnounced h None with
    | Some open => Some open
    | None => acc
    end.
Proof.
  revert acc. induction h as [| e h IH]; intros acc; [ reflexivity | ].
  destruct e; simpl; try apply IH.
  - rewrite (IH (Some false)).
    destruct (lastAnnounced h None); reflexivity.
  - rewrite (IH (Some true)).
    destruct (lastAnnounced h None); reflexivity.
Qed.

Lemma announced_app h1 h2 :
  (forall s, showMenu (commit s h1) = announced h1 s) ->
  (forall s, showMenu (commit s h2) = announced h2 s) ->
  forall s, showMenu (commit s (h1 ++ h2)) = announced (h1 ++ h2) s.
Proof.
  intros H1 H2 s.
  rewrite commit_app, (H2 (commit s h1)). unfold announced.
  rewrite lastAnnounced_app, (lastAnnounced_acc h2 (lastAnnounced h1 None)).
  destruct (lastAnnounced h2 None); [ reflexivity | apply H1 ].
Qed.

Lemma announced_toggleMenu props (open : bool) :
  onMenuOpen props = true -> onMenuClose props = true ->
  forall s, showMenu (commit s (toggleMenu props open))
            = announced (toggleMenu props open) s.
Proof.
  intros Hopen Hclose s. rewrite commit_toggleMenu.
  unfold toggleMenu. rewrite Hopen, Hclose. destruct open; reflexivity.
Qed.

Lemma announced_when (c : bool) h :
  (forall s, showMenu (commit s h) = announced h s) ->
  forall s, showMenu (commit s (when c h)) = announced (when c h) s.
Proof.
  intros Hh s. destruct c; [ apply Hh | reflexivity ].
Qed.

Lemma announced_selectOption props option :
  onMenuOpen props = true -> onMenuClose props = true ->
  forall s, showMenu (commit s (selectOption props option))
            = announced (selectOption props option) s.
Proof.
  intros Hopen Hclose. unfold selectOption.
  apply announced_app.
  - intros s. destruct (onOptionSelect props); reflexivity.
  - apply announced_when, announced_toggleMenu; assumption.
Qed.

Lemma announced_navigation props s0 (direction : FocusDirection) :
  forall s,
    showMenu (commit s ([PreventDefault; StopPropagation]
                        ++ focusOption V_eq_dec props s0 direction))
    = announced ([PreventDefault; StopPropagation]
                 ++ focusOption V_eq_dec props s0 direction) s.
Proof.
  intros s. unfold focusOption.
  destruct (js_length (enabledOptions props) =? 0)%Z; [ reflexivity | ].
  destruct direction; reflexivity.
Qed.

(** X10.  With [onMenuOpen] and [onMenuClose] supplied, the callbacks
    tell the state: after any key press, selection, click on the reference
    or close of the dropdown, [showMenu] in the next render is what the
    last of the two callbacks announced, and it is unchanged when neither
    was invoked. *)
Theorem callbacks_announce_showMenu props s :
  onMenuOpen props = true -> onMenuClose props = true ->
  (forall key,
      showMenu (press V_eq_dec props s key)
      = announced (handleOnKeyDown V_eq_dec props s key) s)
  /\ (forall option,
      showMenu (commit s (selectOption props option))
      = announced (selectOption props option) s)
  /\ showMenu (commit s (onClick props s)) = announced (onClick props s) s
  /\ showMenu (commit s (onClose props)) = announced (onClose props) s.
Proof.
  intros Hopen Hclose.
  split; [ | split; [ | split ] ].
  - unfold press.
    apply (handleOnKeyDown_cases V_eq_dec props s
             (fun key h => showMenu (commit s h) = announced h s)).
    + apply announced_when, announced_toggleMenu; assumption.
    + apply (announced_app [PreventDefault; StopPropagation]);
        [ reflexivity | ].
      apply announced_app.
      * destruct (currentFocusedOption s) as [focused |];
          [ apply announced_selectOption; assumption | reflexivity ].
      * apply announced_when, announced_toggleMenu; assumption.
    + apply announced_when, announced_toggleMenu; assumption.
    + apply announced_navigation.
    + apply announced_navigation.
    + apply announced_navigation.
    + apply announced_navigation.
    + apply announced_when, announced_toggleMenu; assumption.
    + reflexivity.
  - intros option. apply announced_selectOption; assumption.
  - apply announced_toggleMenu; assumption.
  - apply announced_toggleMenu; assumption.
Qed.

(** X11.  Enter selects what the pointer last hovered.  In the render
    that follows [hoverOption] on an option -- any option, enabled or
    disabled -- Enter invokes [onOptionSelect] on that option before any
    other callback. *)
Theorem Enter_selects_hovered props s option :
  onOptionSelect props = true ->
  exists rest,
    callbacks (handleOnKeyDown V_eq_dec props
                 (commit s (hoverOption option)) Keys.Enter)
    = CallOnOptionSelect option :: rest.
Proof.
  intros Hselect.
  rewrite handleOnKeyDown_Enter. cbn [commit hoverOption fold_left
    applyEffect currentFocusedOption].
  unfold selectOption. rewrite Hselect.
  eexists. reflexivity.
Qed.

(** X12.  Clicks on the reference.  A click toggles the menu; a second
    click in the next render restores the state.  Two clicks handled in
    one render both read the same [showMenu]: the menu ends toggled once,
    not twice. *)
Theorem onClick_twice props s :
  showMenu (commit s (onClick props s)) = negb (showMenu s)
  /\ commit (commit s (onClick props s))
            (onClick props (commit s (onClick props s)))
     = s
  /\ commit s (onClick props s ++ onClick props s)
     = commit s (onClick props s).
Proof.
  unfold onClick. rewrite commit_app, !commit_toggleMenu.
  cbn [showMenu currentFocusedOption].
  rewrite negb_involutive.
  destruct s; split; [ | split ]; reflexivity.
Qed.

End MenuAnnouncements.

(** * Sequences of key presses *)

Section MenuSessions.

Import ActionMenu Interaction.

Context {V : Type} (V_eq_dec : forall a b : V, {a = b} + {a <> b}).

Implicit Types (props : ActionMenuProps V) (s : State V)
  (l enabled : list (OptionType V)) (o focused : OptionType V)
  (i k : nat).

Lemma strict_eq_true (a b : V) : strict_eq V_eq_dec a b = true <-> a = b.
Proof.
  unfold strict_eq. destruct (V_eq_dec a b); intuition discriminate.
Qed.

Lemma strict_eq_false (a b : V) : strict_eq V_eq_dec a b = false <-> a <> b.
Proof.
  unfold strict_eq. destruct (V_eq_dec a b); intuition discriminate.
Qed.






Lemma press_navigation props s :
  press V_eq_dec props s Keys.ArrowUp
  = {| showMenu := showMenu s;
       currentFocusedOption :=
         moveFocus V_eq_dec (actionMenuOptions props)
                   (currentFocusedOption s) Up |}
  /\ press V_eq_dec props s Keys.ArrowDown
     = {| showMenu := showMenu s;
          currentFocusedOption :=
            moveFocus V_eq_dec (actionMenuOptions props)
                      (currentFocusedOption s) Down |}.
Proof.
  unfold press.
  destruct (handleOnKeyDown_navigation V_eq_dec props s)
    as [-> [-> _]].
  split; apply navigation_handler.
Qed.





(** X15.  ArrowDown sticks on a repeated value.  When two enabled options
    that follow each other carry the same value, and no option before
    them does, ArrowDown from the second leaves the focus on the second:
    the options after it are out of reach of ArrowDown. *)
Theorem Down_stuck_on_repeated_value props s before a b after :
  enabledOptions props = before ++ a :: b :: after ->
  value a = value b ->
  (forall o, In o before -> value o <> value b) ->
  currentFocusedOption s = Some b ->
  currentFocusedOption (press V_eq_dec props s Keys.ArrowDown) = Some b.
Proof.
  intros Hsplit Hvalue Hbefore Hfocus.
  assert (Eidx : currentFocusedIndex V_eq_dec props s
                 = Z.of_nat (List.length before)).
  { unfold currentFocusedIndex, findIndex. rewrite Hfocus, Hsplit.
    rewrite findIndexFrom_first.
    - lia.
    - intros o Ho. apply strict_eq_false. apply Hbefore. exact Ho.
    - apply strict_eq_true. exact Hvalue. }
  assert (Elen : js_length (enabledOptions props)
                 = (Z.of_nat (List.length before)
                    + 2 + Z.of_nat (List.length after))%Z).
  { unfold js_length. rewrite Hsplit, length_app. simpl. lia. }
  unfold press.
  destruct (handleOnKeyDown_navigation V_eq_dec props s) as [_ [-> _]].
  rewrite commit_consumed. unfold focusOption.
  destruct (Z.eqb_spec (js_length (enabledOptions props)) 0) as [Ez | _];
    [ lia | ].
  rewrite Eidx, Elen, Z.rem_small by lia.
  cbn [commit fold_left applyEffect currentFocusedOption].
  rewrite js_index_nth_error by lia.
  replace (Z.to_nat (Z.of_nat (List.length before) + 1))
    with (List.length before + 1)%nat by lia.
  rewrite Hsplit, nth_error_app2 by lia.
  replace (List.length before + 1 - List.length before)%nat with 1%nat by lia.
  reflexivity.
Qed.

(** X16.  ArrowDown then Enter selects the first enabled option.  On an
    open menu without focus, when [closeOnSelect] holds for the first
    enabled option, the two keys invoke [onOptionSelect] on it and then
    [onMenuClose], and leave the menu closed with the focus on it. *)
Theorem ArrowDown_Enter_selects_first props s first rest :
  showMenu s = true ->
  currentFocusedOption s = None ->
  enabledOptions props = first :: rest ->
  closeMenuOnSelect props first = true ->
  onOptionSelect props = true ->
  onMenuClose props = true ->
  pressTrace V_eq_dec props s [Keys.ArrowDown; Keys.Enter]
  = [CallOnOptionSelect first; CallOnMenuClose]
  /\ pressAll V_eq_dec props s [Keys.ArrowDown; Keys.Enter]
     = {| showMenu := false; currentFocusedOption := Some first |}.
Proof.
  intros Hopen Hfocus Henabled Hpolicy Hselect Hclose.
  assert (Edown : press V_eq_dec props s Keys.ArrowDown
                  = {| showMenu := true;
                       currentFocusedOption := Some first |}).
  { destruct (press_navigation props s) as [_ ->].
    rewrite Hopen, Hfocus. unfold moveFocus.
    rewrite <- enabledOptions_EnabledSubset, Henabled. reflexivity. }
  cbn [pressTrace pressAll fold_left]. rewrite Edown. split.
  - destruct (handleOnKeyDown_navigation V_eq_dec props s) as [_ [-> _]].
    destruct (navigation_handler V_eq_dec props s Down) as [-> _].
    rewrite handleOnKeyDown_Enter.
    cbn [currentFocusedOption showMenu isSome negb andb orb when].
    unfold selectOption, toggleMenu.
    rewrite Hpolicy, Hselect, Hclose. reflexivity.
  - unfold press. rewrite commit_Enter.
    cbn [currentFocusedOption showMenu]. rewrite Hpolicy. reflexivity.
Qed.

(** X17.  Enter twice selects twice.  On an open menu with a focused
    option for which [closeOnSelect] holds, a first Enter selects it and
    closes the menu; the focus stays, so a second Enter selects it again,
    closes again and reopens: the menu is back in the state it started
    from, [onOptionSelect] having been invoked twice. *)
Theorem Enter_twice_selects_twice props s focused :
  showMenu s = true ->
  currentFocusedOption s = Some focused ->
  closeMenuOnSelect props focused = true ->
  onOptionSelect props = true ->
  onMenuClose props = true ->
  onMenuOpen props = true ->
  pressTrace V_eq_dec props s [Keys.Enter; Keys.Enter]
  = [CallOnOptionSelect focused; CallOnMenuClose;
     CallOnOptionSelect focused; CallOnMenuClose; CallOnMenuOpen]
  /\ showMenu (press V_eq_dec props s Keys.Enter) = false
  /\ pressAll V_eq_dec props s [Keys.Enter; Keys.Enter] = s.
Proof.
  intros Hshow Hfocus Hpolicy Hselect Hclose Hopen.
  assert (Efirst : press V_eq_dec props s Keys.Enter
                   = {| showMenu := false;
                        currentFocusedOption := Some focused |}).
  { unfold press. rewrite commit_Enter, Hshow, Hfocus, Hpolicy.
    reflexivity. }
  cbn [pressTrace pressAll fold_left]. rewrite Efirst.
  split; [ | split ].
  - rewrite !handleOnKeyDown_Enter, Hshow, Hfocus.
    cbn [currentFocusedOption showMenu isSome negb andb orb when].
    unfold selectOption, toggleMenu.
    rewrite Hpolicy, Hselect, Hclose, Hopen. reflexivity.
  - reflexivity.
  - unfold press. rewrite commit_Enter.
    cbn [currentFocusedOption showMenu].
    destruct s as [open focus]; cbn in Hshow, Hfocus; subst. reflexivity.
Qed.

End MenuSessions.

(** * The further properties on sample data *)

Section GuaranteeExamples.

Import Position ActionMenu Interaction Samples.

Local Open Scope Z_scope.

(** The tooltip of the flip example: no room above, room below. *)
Lemma GetVisiblePosition_same_axis_witness :
  GetVisiblePosition screen800 (rect 0 0 60 100) (rect 300 10 80 40) "top"
  = sideName STop
  \/ GetVisiblePosition screen800 (rect 0 0 60 100) (rect 300 10 80 40) "top"
     = sideName (opposite STop).
Proof.
  apply (GetVisiblePosition_same_axis screen800 (rect 0 0 60 100)
           (rect 300 10 80 40) "top").
  reflexivity.
Defined.

Lemma GetVisiblePosition_fits_witness :
  exists r : Side,
    GetVisiblePosition screen800 (rect 0 0 60 100) (rect 300 10 80 40) "top"
    = sideName r
    /\ fits (rect 0 0 60 100) (rect 300 10 80 40) (viewportOf screen800) r
       = fits (rect 0 0 60 100) (rect 300 10 80 40) (viewportOf screen800)
              STop
         || fits (rect 0 0 60 100) (rect 300 10 80 40) (viewportOf screen800)
                 (opposite STop).
Proof.
  apply (GetVisiblePosition_fits screen800 (rect 0 0 60 100)
           (rect 300 10 80 40) "top" STop).
  reflexivity.
Defined.

Lemma GetVisiblePosition_stable_witness :
  GetVisiblePosition screen800 (rect 0 0 60 100) (rect 300 10 80 40)
    (GetVisiblePosition screen800 (rect 0 0 60 100) (rect 300 10 80 40) "top")
  = GetVisiblePosition screen800 (rect 0 0 60 100) (rect 300 10 80 40) "top".
Proof.
  apply (GetVisiblePosition_stable screen800 (rect 0 0 60 100)
           (rect 300 10 80 40) "top" STop).
  reflexivity.
Defined.

(** A position that names no side resolves to top, and top may flip: the
    hypothesis of X3 is needed. *)
Example unrecognized_not_stable :
  GetVisiblePosition screen800 (rect 0 0 60 100) (rect 300 10 80 40)
    "bottom-end" = "top"
  /\ GetVisiblePosition screen800 (rect 0 0 60 100) (rect 300 10 80 40)
       "top" = "bottom".
Proof. split; reflexivity. Qed.

(** 10 pixels above and 750 below a parent, for a tooltip 100 high. *)
Lemma GetVisiblePosition_fits_with_room_witness :
  2 * height (rect 0 0 60 100)
  <= top (rect 300 10 80 40)
     + (vheight (viewportOf screen800) - bottom (rect 300 10 80 40))
  /\ exists r : Side,
      GetVisiblePosition screen800 (rect 0 0 60 100) (rect 300 10 80 40)
        "top" = sideName r
      /\ fits (rect 0 0 60 100) (rect 300 10 80 40) (viewportOf screen800) r
         = true.
Proof.
  assert (Hroom : 2 * height (rect 0 0 60 100)
                  <= top (rect 300 10 80 40)
                     + (vheight (viewportOf screen800)
                        - bottom (rect 300 10 80 40)))
    by (vm_compute; discriminate).
  split; [ exact Hroom | ].
  apply (proj1 (GetVisiblePosition_fits_with_room screen800 (rect 0 0 60 100)
                  (rect 300 10 80 40)) Hroom).
  left. reflexivity.
Defined.

(** A tooltip 900 high in a viewport 800 high. *)
Lemma GetVisiblePosition_oversized_witness :
  (0 <= bottom (rect 300 10 80 40)
   /\ top (rect 300 10 80 40) <= vheight (viewportOf screen800)
   /\ vheight (viewportOf screen800) < height (rect 0 0 60 900))
  /\ GetVisiblePosition screen800 (rect 0 0 60 900) (rect 300 10 80 40) "top"
     = "top"
  /\ GetVisiblePosition screen800 (rect 0 0 60 900) (rect 300 10 80 40)
       "bottom" = "bottom".
Proof.
  assert (H1 : 0 <= bottom (rect 300 10 80 40))
    by (vm_compute; discriminate).
  assert (H2 : top (rect 300 10 80 40) <= vheight (viewportOf screen800))
    by (vm_compute; discriminate).
  assert (H3 : vheight (viewportOf screen800) < height (rect 0 0 60 900))
    by reflexivity.
  split; [ repeat split; assumption | ].
  exact (proj1 (GetVisiblePosition_oversized screen800 (rect 0 0 60 900)
                  (rect 300 10 80 40)) H1 H2 H3).
Defined.

Local Close Scope Z_scope.

(** ArrowUp on a closed menu moves the focus and nothing else. *)
Lemma navigation_keys_only_move_focus_witness :
  callbacks (handleOnKeyDown string_dec abc (state false (Some optA))
               Keys.ArrowUp) = []
  /\ showMenu (press string_dec abc (state false (Some optA)) Keys.ArrowUp)
     = false.
Proof.
  apply (navigation_keys_only_move_focus string_dec abc
           (state false (Some optA)) Keys.ArrowUp).
  left. reflexivity.
Defined.

Lemma keyboard_opens_iff_witness :
  showMenu (state false None) = false
  /\ showMenu (press string_dec abc (state false None) Keys.Space) = true.
Proof.
  split; [ reflexivity | ].
  apply (keyboard_opens_iff string_dec abc (state false None) Keys.Space);
    [ reflexivity | right; reflexivity ].
Defined.

(** Under the predicate of [closeOnX], Enter on ["x"] closes. *)
Lemma keyboard_closes_iff_witness :
  showMenu (state true (Some (opt "x" "close" None))) = true
  /\ showMenu (press string_dec closeOnX
                 (state true (Some (opt "x" "close" None))) Keys.Enter)
     = false.
Proof.
  split; [ reflexivity | ].
  apply (keyboard_closes_iff string_dec closeOnX
           (state true (Some (opt "x" "close" None))) Keys.Enter);
    [ reflexivity | split; reflexivity ].
Defined.

(** Escape on an open menu with focus on [optB]: the focus stays. *)
Lemma focus_never_cleared_witness :
  currentFocusedOption (state true (Some optB)) <> None
  /\ currentFocusedOption
       (press string_dec abc (state true (Some optB)) Keys.End_) <> None
  /\ currentFocusedOption
       (press string_dec abc (state true (Some optB)) Keys.Escape)
     = Some optB.
Proof.
  assert (Hfocus : currentFocusedOption (state true (Some optB)) <> None)
    by discriminate.
  split; [ exact Hfocus | ].
  split.
  - exact (proj1 (focus_never_cleared string_dec abc
                    (state true (Some optB)) Keys.End_) Hfocus).
  - apply (focus_never_cleared string_dec abc (state true (Some optB))
             Keys.Escape); discriminate.
Defined.

(** Enter on a closed menu with focus: close is announced, then open. *)
Lemma callbacks_announce_showMenu_witness :
  onMenuOpen abc = true
  /\ onMenuClose abc = true
  /\ showMenu (press string_dec abc (state false (Some optA)) Keys.Enter)
     = announced (handleOnKeyDown string_dec abc (state false (Some optA))
                    Keys.Enter)
                 (state false (Some optA)).
Proof.
  split; [ reflexivity | ].
  split; [ reflexivity | ].
  apply (callbacks_announce_showMenu string_dec abc
           (state false (Some optA)) eq_refl eq_refl).
Defined.

(** Hovering the disabled option of [abc], then Enter. *)
Lemma Enter_selects_hovered_witness :
  onOptionSelect abc = true
  /\ isOptionDisabled (Some (opt "X" "Xylo" (Some true))) = true
  /\ exists rest,
      callbacks (handleOnKeyDown string_dec abc
                   (commit (state true None)
                      (hoverOption (opt "X" "Xylo" (Some true))))
                   Keys.Enter)
      = CallOnOptionSelect (opt "X" "Xylo" (Some true)) :: rest.
Proof.
  split; [ reflexivity | ].
  split; [ reflexivity | ].
  apply (Enter_selects_hovered string_dec abc (state true None)
           (opt "X" "Xylo" (Some true))).
  reflexivity.
Defined.




(** The two options of value ["B"] in [duplicated]. *)
Lemma Down_stuck_on_repeated_value_witness :
  enabledOptions duplicated
  = [opt "A" "Apple" None]
    ++ opt "B" "Banana" None :: opt "B" "Blueberry" None
       :: [opt "C" "Cherry" None]
  /\ currentFocusedOption
       (press string_dec duplicated
          (state true (Some (opt "B" "Blueberry" None))) Keys.ArrowDown)
     = Some (opt "B" "Blueberry" None).
Proof.
  split; [ reflexivity | ].
  apply (Down_stuck_on_repeated_value string_dec duplicated
           (state true (Some (opt "B" "Blueberry" None)))
           [opt "A" "Apple" None] (opt "B" "Banana" None)
           (opt "B" "Blueberry" None) [opt "C" "Cherry" None]).
  - reflexivity.
  - reflexivity.
  - intros o [<- | []]. discriminate.
  - reflexivity.
Defined.

Lemma ArrowDown_Enter_selects_first_witness :
  enabledOptions abc = optA :: [optB; optC]
  /\ closeMenuOnSelect abc optA = true
  /\ pressTrace string_dec abc (state true None)
       [Keys.ArrowDown; Keys.Enter]
     = [CallOnOptionSelect optA; CallOnMenuClose]
  /\ pressAll string_dec abc (state true None) [Keys.ArrowDown; Keys.Enter]
     = state false (Some optA).
Proof.
  split; [ reflexivity | ].
  split; [ reflexivity | ].
  apply (ArrowDown_Enter_selects_first string_dec abc (state true None)
           optA [optB; optC]); reflexivity.
Defined.

Lemma Enter_twice_selects_twice_witness :
  closeMenuOnSelect abc optB = true
  /\ pressTrace string_dec abc (state true (Some optB))
       [Keys.Enter; Keys.Enter]
     = [CallOnOptionSelect optB; CallOnMenuClose;
        CallOnOptionSelect optB; CallOnMenuClose; CallOnMenuOpen]
  /\ pressAll string_dec abc (state true (Some optB))
       [Keys.Enter; Keys.Enter]
     = state true (Some optB).
Proof.
  split; [ reflexivity | ].
  destruct (Enter_twice_selects_twice string_dec abc
              (state true (Some optB)) optB
              eq_refl eq_refl eq_refl eq_refl eq_refl eq_refl)
    as [Htrace [_ Hstate]].
  split; [ exact Htrace | exact Hstate ].
Defined.

End GuaranteeExamples.
